(** * HR Salary Prediction Dashboard: a shallow embedding of [dashboard/app1.py]

  The dashboard is one Streamlit script that is re-run from top to bottom
  on every interaction.  The embedding below follows the script section by
  section (its comment banners give the names):

  - Python floats ([numpy.float64], IEEE-754 binary64) are [spec_float]
    values with the binary64 operations of the Standard Library's
    [SpecFloat]: round-to-nearest-even, signed zeros, infinities and NaN;
  - the format specifications [,.2f], [+.1f] and [,] of the f-strings are
    written out on the exact binary value, as CPython's correctly rounded
    conversion does;
  - the pandas reductions the script calls ([mean], [max], [head], [len],
    [describe], [isnull().sum().sum()]) work on a frame of named columns
    whose cells are numbers or texts; the sum behind [mean] is numpy's
    pairwise summation;
  - every [st.*] call appends one element to the page, inside the block
    ([with st.sidebar:], a column, a tab) it is issued in; [st.stop()] and
    exceptions end the run and keep what was rendered before them;
  - an exception raised inside numpy, pandas or plotly has the class the
    library gives it; its text is the library's own and is taken from
    the process, which stands for the installed releases;
  - [st.cache_resource] and [st.cache_data] keep their entries in a
    process state that outlives the run, and objects carry an identity. *)

From Stdlib Require Import ZArith List String Ascii Bool Lia.
From Stdlib Require Import SpecFloat DecimalString DecimalPos DecimalN.
Import ListNotations.

Local Open Scope string_scope.
Local Open Scope Z_scope.

(* ================================================================== *)
(** * numpy.float64                                                    *)
(* ================================================================== *)

Module Float64.

Definition float := spec_float.

Definition prec : Z := 53.
Definition emax : Z := 1024.

Definition add : float -> float -> float := SFadd prec emax.
Definition sub : float -> float -> float := SFsub prec emax.
Definition mul : float -> float -> float := SFmul prec emax.
Definition div : float -> float -> float := SFdiv prec emax.

(** [float(z)] for a Python int; exact on the integers the script uses. *)
Definition of_Z (z : Z) : float := binary_normalize prec emax z 0 false.

Definition nan : float := S754_nan.
Definition zero : float := S754_zero false.
Definition neg_inf : float := S754_infinity true.

Definition is_nan (x : float) : bool :=
  match x with S754_nan => true | _ => false end.

Definition is_finite (x : float) : bool :=
  match x with S754_zero _ | S754_finite _ _ _ => true | _ => false end.

Definition ltb : float -> float -> bool := SFltb.

(** [np.maximum] on two non-NaN values. *)
Definition fmax (x y : float) : float := if ltb x y then y else x.

End Float64.

Import Float64.

(* ================================================================== *)
(** * numpy: the sum of an array                                       *)
(* ================================================================== *)

Module Numpy.

(** The eight partial sums of the unrolled loop. *)
Definition lanes : Type :=
  (float * float * float * float * float * float * float * float)%type.

(** The cells added in index order, starting from the first one. *)
Definition running_sum (a : list float) : float :=
  match a with
  | [] => zero
  | x :: rest => fold_left add rest x
  end.

(** The unrolled loop: as long as eight more cells are left, each of
    them is added to a partial sum of its own.  Returns the partial sums
    and the cells left over, fewer than eight. *)
Fixpoint unrolled (r : lanes) (a : list float) : lanes * list float :=
  match a with
  | a0 :: a1 :: a2 :: a3 :: a4 :: a5 :: a6 :: a7 :: rest =>
      let '(r0, r1, r2, r3, r4, r5, r6, r7) := r in
      unrolled (add r0 a0, add r1 a1, add r2 a2, add r3 a3,
                add r4 a4, add r5 a5, add r6 a6, add r7 a7) rest
  | _ => (r, a)
  end.

(** A block of at most 128 cells.  Fewer than eight cells are added in
    index order.  Otherwise the first eight cells start the partial
    sums, the unrolled loop runs over the blocks of eight that follow,
    the partial sums are added in pairs, and the cells left over are
    added last. *)
Definition block_sum (a : list float) : float :=
  match a with
  | a0 :: a1 :: a2 :: a3 :: a4 :: a5 :: a6 :: a7 :: rest =>
      let '(r0, r1, r2, r3, r4, r5, r6, r7, leftover) :=
        unrolled (a0, a1, a2, a3, a4, a5, a6, a7) rest in
      fold_left add leftover
        (add (add (add r0 r1) (add r2 r3)) (add (add r4 r5) (add r6 r7)))
  | _ => running_sum a
  end.

(** Pairwise summation: an array of more than 128 cells is split near
    its middle, at a multiple of eight, and the sums of the two parts
    are added.  [fuel] bounds the depth of the splitting; the length of
    the array is enough (see [pairwise_sum_fuel]). *)
Fixpoint pairwise_sum (fuel : nat) (a : list float) : float :=
  let n := List.length a in
  match fuel with
  | S fuel' =>
      if (n <=? 128)%nat then block_sum a
      else
        let n2 := (n / 2 - (n / 2) mod 8)%nat in
        add (pairwise_sum fuel' (firstn n2 a))
            (pairwise_sum fuel' (skipn n2 a))
  | O => block_sum a
  end.

(** [a.sum()] of a one-dimensional float64 array. *)
Definition sum (a : list float) : float := pairwise_sum (List.length a) a.

(** [np.getbufsize()] *)
Definition bufsize : nat := Z.to_nat 8192.

(** [a.sum(dtype=float64)] of an int64 array: the cells are converted in
    buffers of [bufsize], and the sum of each buffer is added to the
    total.  [a] holds the cells already converted. *)
Fixpoint buffered_sum (fuel : nat) (total : float) (a : list float) : float :=
  match fuel, a with
  | S fuel', _ :: _ =>
      buffered_sum fuel' (add total (sum (firstn bufsize a)))
        (skipn bufsize a)
  | _, _ => total
  end.

Definition sum_cast (a : list float) : float :=
  match a with
  | [] => zero
  | _ :: _ =>
      buffered_sum (List.length (skipn bufsize a)) (sum (firstn bufsize a))
        (skipn bufsize a)
  end.

End Numpy.

(* ================================================================== *)
(** * Format specifications of the f-strings                           *)
(* ================================================================== *)

Module PyFormat.

Definition is_digit (c : ascii) : bool :=
  let n := nat_of_ascii c in (48 <=? n)%nat && (n <=? 57)%nat.

(** [str(n)] for a non-negative int. *)
Definition digits_of_N (n : N) : string :=
  NilEmpty.string_of_uint (N.to_uint n).

(** [str(z)] for a Python int. *)
Definition str_int (z : Z) : string :=
  match z with
  | Zneg p => "-" ++ digits_of_N (Npos p)
  | _ => digits_of_N (Z.to_N z)
  end.

(** The [ndigits] lowest decimal digits of [n], zero padded. *)
Fixpoint frac_digits (ndigits : nat) (n : Z) : string :=
  match ndigits with
  | O => ""
  | S k => frac_digits k (n / 10)
           ++ String (ascii_of_nat (48 + Z.to_nat (n mod 10))) ""
  end.

(** Thousands separators, on the digits from the least significant one. *)
Fixpoint group_rev (l : list ascii) : list ascii :=
  match l with
  | a :: l1 =>
      match l1 with
      | b :: l2 =>
          match l2 with
          | c :: l3 =>
              match l3 with
              | [] => l
              | _ :: _ => a :: b :: c :: ","%char :: group_rev l3
              end
          | [] => l
          end
      | [] => l
      end
  | [] => l
  end.

Definition group_thousands (s : string) : string :=
  string_of_list_ascii (rev (group_rev (rev (list_ascii_of_string s)))).

(** Round [n / d] to the nearest integer, ties to even ([d > 0]). *)
Definition round_half_even (n d : Z) : Z :=
  let q := n / d in
  let r := n mod d in
  match 2 * r ?= d with
  | Lt => q
  | Eq => if Z.even q then q else q + 1
  | Gt => q + 1
  end.

(** [|m * 2^e| * 10^ndigits], correctly rounded to an integer. *)
Definition scaled (ndigits : nat) (m : positive) (e : Z) : Z :=
  let n := Zpos m * 10 ^ Z.of_nat ndigits in
  if 0 <=? e then n * 2 ^ e else round_half_even n (2 ^ (- e)).

(** The digits of a finite magnitude whose scaled value is [n]:
    integer part (grouped when [comma]), point, [ndigits] decimals. *)
Definition fixed_digits (comma : bool) (ndigits : nat) (n : Z) : string :=
  let ip := digits_of_N (Z.to_N (n / 10 ^ Z.of_nat ndigits)) in
  (if comma then group_thousands ip else ip)
  ++ match ndigits with O => "" | S _ => "." ++ frac_digits ndigits n end.

Definition sign_str (plus : bool) (negative : bool) : string :=
  if negative then "-" else if plus then "+" else "".

(** [format(x, "[+][,].<ndigits>f")].  The sign of a NaN is ignored, the
    sign of a zero is kept. *)
Definition format_f (plus comma : bool) (ndigits : nat) (x : float) : string :=
  match x with
  | S754_nan => sign_str plus false ++ "nan"
  | S754_infinity s => sign_str plus s ++ "inf"
  | S754_zero s => sign_str plus s ++ fixed_digits comma ndigits 0
  | S754_finite s m e =>
      sign_str plus s ++ fixed_digits comma ndigits (scaled ndigits m e)
  end.

(** [f"${x:,.2f}"] *)
Definition currency (x : float) : string := "$" ++ format_f false true 2 x.

(** [f"{x:+.1f}%"] *)
Definition percent (x : float) : string := format_f true false 1 x ++ "%".

(** [f"{n:,}"] for an int. *)
Definition format_int_comma (z : Z) : string :=
  match z with
  | Zneg p => "-" ++ group_thousands (digits_of_N (Npos p))
  | _ => group_thousands (digits_of_N (Z.to_N z))
  end.

(** ** Recognisers for the rendered shapes *)

(** Digits in groups of three from the right, commas between the groups,
    the leading group of one to three digits; on the reversed text. *)
Fixpoint grouped_rev (l : list ascii) : bool :=
  match l with
  | a :: l1 =>
      is_digit a &&
      match l1 with
      | [] => true
      | b :: l2 =>
          is_digit b &&
          match l2 with
          | [] => true
          | c :: l3 =>
              is_digit c &&
              match l3 with
              | [] => true
              | k :: l4 => Ascii.eqb k ","%char && grouped_rev l4
              end
          end
      end
  | [] => false
  end.

Definition all_digits (l : list ascii) : bool := forallb is_digit l.

Definition drop_minus (l : list ascii) : list ascii :=
  match l with
  | c :: l' => if Ascii.eqb c "-"%char then l' else l
  | [] => l
  end.

(** [$], an optional minus sign, comma-grouped digits, a point and
    exactly two decimals. *)
Definition is_currency_text (s : string) : bool :=
  match list_ascii_of_string s with
  | d :: body =>
      Ascii.eqb d "$"%char &&
      match rev (drop_minus body) with
      | c2 :: c1 :: pt :: ip =>
          is_digit c2 && is_digit c1 && Ascii.eqb pt "."%char
          && grouped_rev ip
      | _ => false
      end
  | [] => false
  end.

(** An explicit sign, digits, a point, exactly one decimal and [%]. *)
Definition is_percent_text (s : string) : bool :=
  match list_ascii_of_string s with
  | sg :: body =>
      (Ascii.eqb sg "+"%char || Ascii.eqb sg "-"%char) &&
      match rev body with
      | pc :: c1 :: pt :: ip =>
          Ascii.eqb pc "%"%char && is_digit c1 && Ascii.eqb pt "."%char
          && all_digits ip && negb (Nat.eqb (List.length ip) 0)
      | _ => false
      end
  | [] => false
  end.

End PyFormat.

Import PyFormat.


(* ================================================================== *)
(** * pandas: the frame and the reductions the script calls            *)
(* ================================================================== *)

Module Pandas.

Inductive dtype := int64 | float64 | object.

(** A cell of a column: a number or a text.  A missing cell is a NaN,
    as pandas reports it ([isna]). *)
Inductive cell := Num (x : float) | Str (s : string).

(** A column.  [pd.read_excel] gives a column of numbers the dtype
    int64 or float64, and a column with a text cell the dtype object. *)
Record Series := { name : string; dtype_of : dtype; values : list cell }.

Definition DataFrame := list Series.

(** [df[key]]: the column, or nothing where pandas raises [KeyError]. *)
Definition getitem (df : DataFrame) (key : string) : option Series :=
  find (fun c => String.eqb (name c) key) df.

(** [len(df)]: the number of rows. *)
Definition len (df : DataFrame) : Z :=
  match df with
  | [] => 0
  | c :: _ => Z.of_nat (List.length (values c))
  end.

(** [len(df.columns)] *)
Definition n_columns (df : DataFrame) : Z := Z.of_nat (List.length df).

Definition isna (c : cell) : bool :=
  match c with
  | Num x => is_nan x
  | Str _ => false
  end.

Definition notna (xs : list cell) : list cell :=
  filter (fun c => negb (isna c)) xs.

Definition is_text (c : cell) : bool :=
  match c with
  | Str _ => true
  | Num _ => false
  end.

(** The column has a text cell: its reductions to a number raise
    [TypeError]. *)
Definition has_text (s : Series) : bool := existsb is_text (values s).

(** The numbers of the cells, a missing cell replaced by [v].  (A text
    cell has no number; the reductions below are not reached with one.) *)
Definition fillna (v : float) (xs : list cell) : list float :=
  flat_map (fun c =>
              match c with
              | Num x => [if is_nan x then v else x]
              | Str _ => []
              end) xs.

(** [values.sum(dtype=float64)] as [Series.mean()] calls it. *)
Definition the_sum (t : dtype) (a : list float) : float :=
  match t with
  | int64 => Numpy.sum_cast a
  | float64 => Numpy.sum a
  | object => Numpy.running_sum a
  end.

(** [Series.mean()] with the default [skipna=True], where it returns:
    missing cells count as 0 in the sum and are left out of the count;
    NaN when no cell is left.  On a column with a text cell pandas
    raises instead (see [mean_of] below); NaN stands for that here. *)
Definition mean (s : Series) : float :=
  if has_text s then nan
  else
    match List.length (notna (values s)) with
    | O => nan
    | S k =>
        div (the_sum (dtype_of s) (fillna zero (values s)))
            (of_Z (Z.of_nat (S k)))
    end.

(** [Series.max()] with [skipna=True], where it returns: missing cells
    count as [-inf]; NaN when no cell is left. *)
Definition max (s : Series) : float :=
  if has_text s then nan
  else
    match notna (values s) with
    | [] => nan
    | _ :: _ => fold_left fmax (fillna neg_inf (values s)) neg_inf
    end.

(** [df.head(n)] *)
Definition head (n : nat) (df : DataFrame) : DataFrame :=
  map (fun c => {| name := name c; dtype_of := dtype_of c;
                   values := firstn n (values c) |}) df.

(** [df.isnull().sum().sum()] *)
Definition isnull_sum_sum (df : DataFrame) : Z :=
  fold_left Z.add
    (map (fun c => Z.of_nat (List.length (filter isna (values c)))) df) 0.

Definition repr_dtype (t : dtype) : string :=
  match t with
  | int64 => "dtype('int64')"
  | float64 => "dtype('float64')"
  | object => "dtype('O')"
  end.

(** [str(df.dtypes.tolist())] *)
Definition str_dtypes (df : DataFrame) : string :=
  "[" ++ String.concat ", " (map (fun c => repr_dtype (dtype_of c)) df) ++ "]".

(** What [st.dataframe] is handed: a frame, or the summary table of
    [df.describe()], kept as the expression over its frame. *)
Inductive table :=
| Frame (df : DataFrame)
| Describe (df : DataFrame).

(** [df.describe()]: the summary table, or nothing where pandas raises
    [ValueError] because the frame has no columns. *)
Definition describe (df : DataFrame) : option table :=
  match df with
  | [] => None
  | _ :: _ => Some (Describe df)
  end.

End Pandas.


(* ================================================================== *)
(** * plotly: figures                                                  *)
(* ================================================================== *)

Module Plotly.

(** A coordinate: a Python int, a float or a text. *)
Inductive scalar := SInt (z : Z) | SFloat (x : float) | SText (s : string).

Record marker := { size : option Z; color : string; symbol : option string }.

Record trace := {
  xs : list scalar;
  ys : list scalar;
  hover : list (string * list scalar);
  mode : string;
  trace_marker : marker;
  trace_name : string
}.

Record layout := {
  title : string;
  xaxis_title : string;
  yaxis_title : string;
  height : option Z;
  showlegend : option bool
}.

Record figure := { traces : list trace; fig_layout : layout }.

(** The cells of a column as coordinates. *)
Definition coordinates (c : Pandas.Series) : list scalar :=
  map (fun v =>
         match v with
         | Pandas.Num x => SFloat x
         | Pandas.Str t => SText t
         end) (Pandas.values c).

(** [px.scatter(df, x=, y=, hover_data=[h], title=,
    color_discrete_sequence=[colour])]: one marker trace over the two
    columns, axes titled by the column names; nothing where plotly
    raises [ValueError] for a column that the frame does not have. *)
Definition px_scatter (df : Pandas.DataFrame) (x y h ttl colour : string)
  : option figure :=
  match Pandas.getitem df x, Pandas.getitem df y, Pandas.getitem df h with
  | Some cx, Some cy, Some ch =>
      Some {| traces :=
                [ {| xs := coordinates cx; ys := coordinates cy;
                     hover := [(h, coordinates ch)];
                     mode := "markers";
                     trace_marker := {| size := None; color := colour;
                                        symbol := None |};
                     trace_name := "" |} ];
              fig_layout := {| title := ttl; xaxis_title := x;
                               yaxis_title := y; height := None;
                               showlegend := None |} |}
  | _, _, _ => None
  end.

(** [fig.add_trace(t)] *)
Definition add_trace (f : figure) (t : trace) : figure :=
  {| traces := traces f ++ [t]; fig_layout := fig_layout f |}.

(** [go.Scatter(x=[x], y=[y], mode='markers',
    marker=dict(size=, color=, symbol=), name=)] *)
Definition go_scatter (x y : scalar) (sz : Z) (col sym nm : string) : trace :=
  {| xs := [x]; ys := [y]; hover := []; mode := "markers";
     trace_marker := {| size := Some sz; color := col; symbol := Some sym |};
     trace_name := nm |}.

(** [fig.update_layout(height=, showlegend=, xaxis_title=, yaxis_title=)] *)
Definition update_layout (f : figure) (h : Z) (legend : bool)
  (xt yt : string) : figure :=
  {| traces := traces f;
     fig_layout := {| title := title (fig_layout f); xaxis_title := xt;
                      yaxis_title := yt; height := Some h;
                      showlegend := Some legend |} |}.

End Plotly.


(* ================================================================== *)
(** * Streamlit: the page, the run and the process-wide caches         *)
(* ================================================================== *)

Module Streamlit.

(** A Python exception: its class and [str(e)]. *)
Record exn := { exn_class : string; exn_str : string }.

(** A Python object: an identity and a value. *)
Record obj (A : Type) := { oid : nat; oval : A }.
Arguments oid {A} _.
Arguments oval {A} _.

(** The regression model: [predict] takes the rows of an integer array
    and returns one output per row, or raises. *)
Record Model := { predict : list (list Z) -> exn + list float }.

(** The files next to the script: what deserialising each one gives. *)
Record files := {
  joblib_file : string -> exn + Model;
  excel_file : string -> exn + Pandas.DataFrame
}.

(** The state of the widgets in the browser, by widget label: where the
    user left a slider (nothing while it was never moved) and whether a
    button was just pressed. *)
Record session := {
  slider_state : string -> option Z;
  button_pressed : string -> bool
}.

(** Where an element is rendered: the [with] blocks around the call. *)
Inductive block :=
| Main
| Sidebar (parent : block)
| Container (parent : block)
| Column (i : nat) (parent : block)
| Expander (label : string) (parent : block)
| Tab (label : string) (parent : block).

Inductive element :=
| PageConfig (page_title page_icon layout initial_sidebar_state : string)
| Markdown (body : string) (unsafe_allow_html : bool)
| Subheader (body : string)
| Metric (label value : string)
| Slider (label : string) (min_value max_value value : Z) (help : string)
| Button (label : string) (use_container_width : bool)
| Error (body : string)
| Columns (spec : list Z)
| Tabs (labels : list string)
| ExpanderBox (label : string) (expanded : bool)
| ContainerBox
| PlotlyChart (fig : Plotly.figure) (use_container_width : bool)
| DataFrameView (t : Pandas.table) (use_container_width : bool).

(** What goes wrong inside numpy, pandas and plotly in this script.
    The class of the exception follows from what went wrong.  Its text
    is the library's own and differs between releases, so it is not
    fixed here: it is a parameter, the field [texts] of the process. *)
Inductive failure :=
| EmptyOutput
    (** [a[0]] on an array without elements *)
| NoSuchKey (df : Pandas.DataFrame) (key : string)
    (** [df[key]] for a name that is not a column *)
| NoSuchColumn (df : Pandas.DataFrame) (x y h : string)
    (** [px.scatter(df, x=, y=, hover_data=[h])] with a name that is not
        a column *)
| NotNumeric (c : Pandas.Series)
    (** [c.mean()] on a column with a text cell *)
| NotOrdered (c : Pandas.Series)
    (** [c.max()] on a column that mixes texts with other cells *)
| NotFormattable (c : Pandas.Series)
    (** the format [,.2f] on the text that [c.max()] returns for a
        column of texts *)
| NoColumns
    (** [df.describe()] on a frame without columns *).

Definition class_of (f : failure) : string :=
  match f with
  | EmptyOutput => "IndexError"
  | NoSuchKey _ _ => "KeyError"
  | NoSuchColumn _ _ _ _ => "ValueError"
  | NotNumeric _ => "TypeError"
  | NotOrdered _ => "TypeError"
  | NotFormattable _ => "ValueError"
  | NoColumns => "ValueError"
  end.

(** What outlives a run: the entry of each cached function, the next
    fresh object identity, the files read so far, oldest first, and the
    texts of the exceptions of the installed libraries. *)
Record process := {
  resource_cache : option (obj Model);
  data_cache : option Pandas.DataFrame;
  next_id : nat;
  reads : list string;
  texts : failure -> string
}.

(** The exception a library raises in process [p] for [f]. *)
Definition library_error (p : process) (f : failure) : exn :=
  {| exn_class := class_of f; exn_str := texts p f |}.

(** The state of one run of the script. *)
Record run_state := {
  proc : process;
  page : list (block * element);
  here : block;
  predict_calls : list (list (list Z))
}.

Definition start (p : process) : run_state :=
  {| proc := p; page := []; here := Main; predict_calls := [] |}.

Inductive outcome (A : Type) :=
| Ok (a : A)
| Raise (e : exn)
| Stopped.
Arguments Ok {A} _.
Arguments Raise {A} _.
Arguments Stopped {A}.

Definition M (A : Type) : Type := run_state -> outcome A * run_state.

Definition ret {A} (a : A) : M A := fun s => (Ok a, s).

Definition bind {A B} (m : M A) (k : A -> M B) : M B :=
  fun s =>
    match m s with
    | (Ok a, s') => k a s'
    | (Raise e, s') => (Raise e, s')
    | (Stopped, s') => (Stopped, s')
    end.

Definition raise {A} (e : exn) : M A := fun s => (Raise e, s).

(** A library raises. *)
Definition fail {A} (f : failure) : M A :=
  fun s => (Raise (library_error (proc s) f), s).

(** [try: body  except Exception as e: handler(e)].  [st.stop()] is not
    an [Exception] and passes through. *)
Definition try_except {A} (body : M A) (handler : exn -> M A) : M A :=
  fun s =>
    match body s with
    | (Raise e, s') => handler e s'
    | r => r
    end.

Definition with_proc (f : process -> process) (s : run_state) : run_state :=
  {| proc := f (proc s); page := page s; here := here s;
     predict_calls := predict_calls s |}.

Definition with_here (b : block) (s : run_state) : run_state :=
  {| proc := proc s; page := page s; here := b;
     predict_calls := predict_calls s |}.

Definition emit (e : element) : M unit :=
  fun s => (Ok tt, {| proc := proc s; page := page s ++ [(here s, e)];
                      here := here s; predict_calls := predict_calls s |}).

(** [with blk: body] *)
Definition within {A} (blk : block -> block) (body : M A) : M A :=
  fun s =>
    let (r, s') := body (with_here (blk (here s)) s) in
    (r, with_here (here s) s').

(** [st.stop()] *)
Definition stop {A} : M A := fun s => (Stopped, s).

(** Modelled from the spec: [st.slider] of the Streamlit library, whose
    code is not part of the repository.  The control clamps to its range:
    it returns the position the user left it at, which lies between
    [min_value] and [max_value], and [value] while it was never moved. *)
Definition slider_value (lo hi dflt : Z) (moved : option Z) : Z :=
  match moved with
  | Some v => Z.max lo (Z.min hi v)
  | None => dflt
  end.

Definition slider (ui : session) (label : string) (lo hi dflt : Z)
  (help : string) : M Z :=
  bind (emit (Slider label lo hi dflt help))
       (fun _ => ret (slider_value lo hi dflt (slider_state ui label))).

Definition button (ui : session) (label : string) (wide : bool) : M bool :=
  bind (emit (Button label wide)) (fun _ => ret (button_pressed ui label)).

(** Allocation of a new object. *)
Definition new_obj {A} (v : A) : M (obj A) :=
  fun s =>
    let p := proc s in
    (Ok {| oid := next_id p; oval := v |},
     with_proc (fun p => {| resource_cache := resource_cache p;
                            data_cache := data_cache p;
                            next_id := S (next_id p);
                            reads := reads p;
                            texts := texts p |}) s).

Definition log_read (path : string) : M unit :=
  fun s =>
    (Ok tt, with_proc (fun p => {| resource_cache := resource_cache p;
                                   data_cache := data_cache p;
                                   next_id := next_id p;
                                   reads := reads p ++ [path];
                                   texts := texts p |}) s).

(** [joblib.load(path)] *)
Definition joblib_load (fs : files) (path : string) : M (obj Model) :=
  bind (log_read path) (fun _ =>
  match joblib_file fs path with
  | inl e => raise e
  | inr m => new_obj m
  end).

(** [pd.read_excel(path)] *)
Definition read_excel (fs : files) (path : string)
  : M (obj Pandas.DataFrame) :=
  bind (log_read path) (fun _ =>
  match excel_file fs path with
  | inl e => raise e
  | inr d => new_obj d
  end).

(** [@st.cache_resource] on a function without arguments, as Streamlit
    documents it: the first call that returns stores the object itself,
    later calls return that very object.  A call that raises stores
    nothing. *)
Definition cache_resource (f : M (obj Model)) : M (obj Model) :=
  fun s =>
    match resource_cache (proc s) with
    | Some o => (Ok o, s)
    | None =>
        match f s with
        | (Ok o, s') =>
            (Ok o, with_proc (fun p => {| resource_cache := Some o;
                                          data_cache := data_cache p;
                                          next_id := next_id p;
                                          reads := reads p;
                                          texts := texts p |}) s')
        | r => r
        end
    end.

(** [@st.cache_data] on a function without arguments, as Streamlit
    documents it: the first call that returns stores the pickled value
    and returns the computed object; every later call unpickles the
    entry, so each caller gets a copy of its own.  A call that raises
    stores nothing. *)
Definition cache_data (f : M (obj Pandas.DataFrame))
  : M (obj Pandas.DataFrame) :=
  fun s =>
    match data_cache (proc s) with
    | Some v => new_obj v s
    | None =>
        match f s with
        | (Ok o, s') =>
            (Ok o, with_proc (fun p => {| resource_cache := resource_cache p;
                                          data_cache := Some (oval o);
                                          next_id := next_id p;
                                          reads := reads p;
                                          texts := texts p |}) s')
        | r => r
        end
    end.

(** [model.predict(X)], recorded in the run. *)
Definition call_predict (model : obj Model) (X : list (list Z))
  : M (list float) :=
  fun s =>
    let s' := {| proc := proc s; page := page s; here := here s;
                 predict_calls := predict_calls s ++ [X] |} in
    match predict (oval model) X with
    | inl e => (Raise e, s')
    | inr out => (Ok out, s')
    end.

(** [a[0]] on a one-dimensional array. *)
Definition item0 (a : list float) : M float :=
  match a with
  | y :: _ => ret y
  | [] => fail EmptyOutput
  end.

(** [df[key]] *)
Definition column (df : Pandas.DataFrame) (key : string) : M Pandas.Series :=
  match Pandas.getitem df key with
  | Some c => ret c
  | None => fail (NoSuchKey df key)
  end.

(** [c.mean()] *)
Definition mean_of (c : Pandas.Series) : M float :=
  if Pandas.has_text c then fail (NotNumeric c) else ret (Pandas.mean c).

(** [c.max()], as a number to format.  On a column of texts only,
    [max()] returns a text and the format [,.2f] raises; on a column
    that mixes texts with numbers or missing cells the comparison
    raises. *)
Definition max_of (c : Pandas.Series) : M float :=
  if Pandas.has_text c
  then if forallb Pandas.is_text (Pandas.values c)
       then fail (NotFormattable c)
       else fail (NotOrdered c)
  else ret (Pandas.max c).

(** [df.describe()] *)
Definition describe (df : Pandas.DataFrame) : M Pandas.table :=
  match Pandas.describe df with
  | Some t => ret t
  | None => fail NoColumns
  end.

(** [px.scatter(df, x=, y=, hover_data=[h], title=,
    color_discrete_sequence=[colour])] *)
Definition scatter (df : Pandas.DataFrame) (x y h ttl colour : string)
  : M Plotly.figure :=
  match Plotly.px_scatter df x y h ttl colour with
  | Some f => ret f
  | None => fail (NoSuchColumn df x y h)
  end.

End Streamlit.

Import Streamlit.

Declare Scope run_scope.
Delimit Scope run_scope with run.
Notation "x <- m ;; k" := (bind m (fun x => k))
(at level 61, m at next level, right associativity) : run_scope.
Notation "m ;; k" := (bind m (fun _ => k))
(at level 61, right associativity) : run_scope.

(* ================================================================== *)
(** * The script                                                       *)
(* ================================================================== *)

Module App.

Local Open Scope run_scope.

Definition dq : string := String "034"%char "".

(** ** Page Configuration *)

Definition page_configuration : M unit :=
  emit (PageConfig "💼 HR Salary Prediction Dashboard" "💰" "wide" "expanded").

(** ** Custom CSS Styling *)

Definition css : string :=
"
<style>
    .main-header {
        font-size: 3rem;
        color: #1f77b4;
        text-align: center;
        margin-bottom: 2rem;
    }
    .prediction-card {
        background-color: #f0f2f6;
        padding: 2rem;
        border-radius: 10px;
        border-left: 5px solid #1f77b4;
    }
    .metric-card {
        background-color: white;
        padding: 1rem;
        border-radius: 10px;
        box-shadow: 0 4px 6px rgba(0, 0, 0, 0.1);
        margin: 0.5rem;
    }
</style>
".

Definition custom_css_styling : M unit := emit (Markdown css true).

(** ** Load Resources *)

Definition model_path : string := "gradient_boosting_model.pkl".
Definition data_path : string := "salary_dataset.xlsx".

Definition load_model (fs : files) : M (obj Model) :=
  cache_resource (joblib_load fs model_path).

Definition load_data (fs : files) : M (obj Pandas.DataFrame) :=
  cache_data (read_excel fs data_path).

Definition error_loading (e : exn) : string :=
  "❌ Error loading resources: " ++ exn_str e.

Definition load_resources (fs : files)
  : M (obj Model * obj Pandas.DataFrame) :=
  try_except
    (model <- load_model fs ;;
     data <- load_data fs ;;
     ret (model, data))
    (fun e => emit (Error (error_loading e)) ;; stop).

(** ** Header Section *)

Definition header_html : string :=
  "<h1 class=" ++ dq ++ "main-header" ++ dq
  ++ ">💼 HR Salary Prediction Dashboard</h1>".

Definition intro_html : string :=
"
<div style='text-align: center; margin-bottom: 3rem;'>
    <h3 style='color: #666; font-weight: 300;'>
    Predict employee salaries based on <strong>Age</strong> and <strong>Years of Experience</strong>
    </h3>
    <p>Powered by Gradient Boosting Regression 🤖</p>
</div>
".

Definition header_section : M unit :=
  emit (Columns [1; 2; 1]) ;;
  within (Column 2) (emit (Markdown header_html true)) ;;
  emit (Markdown intro_html true).

(** ** Sidebar for Inputs *)

Definition sidebar_for_inputs (ui : session) (data : obj Pandas.DataFrame)
  : M (Z * Z * bool) :=
  within Sidebar
    (emit (Markdown "## 🧍 Employee Details" false) ;;
     emit ContainerBox ;;
     ae <- within Container
       (emit (Markdown "### Basic Information" false) ;;
        age <- slider ui "**Age**" 18 65 30 "Select the employee's age" ;;
        experience <- slider ui "**Years of Experience**" 0 50 5
                        "Select years of professional experience" ;;
        ret (age, experience)) ;;
     emit (Markdown "---" false) ;;
     emit (Markdown "### 📊 Model Information" false) ;;
     emit (Metric "Training Samples"
             (format_int_comma (Pandas.len (oval data)))) ;;
     emit (Metric "Features" "2 (Age, Experience)") ;;
     emit (Markdown "---" false) ;;
     predict_btn <- button ui "🎯 Predict Salary" true ;;
     ret (fst ae, snd ae, predict_btn)).

(** ** Main Content Area *)

Definition card_head : string :=
"
        <div class='prediction-card'>
            <h2 style='text-align: center; color: #1f77b4;'>💰 Predicted Salary</h2>
            <h1 style='text-align: center; color: #2ecc71; font-size: 3rem;'>".

Definition card_mid : string :=
"</h1>
            <p style='text-align: center; color: #666;'>Based on Age: ".

Definition card_tail : string :=
" years</p>
        </div>
        ".

(** [input_data = np.array([[age, experience]])] *)
Definition input_data (age experience : Z) : list (list Z) :=
  [[age; experience]].

(** [prediction = model.predict(input_data)[0]] *)
Definition prediction (model : obj Model) (age experience : Z) : M float :=
  out <- call_predict model (input_data age experience) ;;
  item0 out.

Definition prediction_card_html (prediction : float) (age experience : Z)
  : string :=
  card_head ++ currency prediction ++ card_mid ++ str_int age
  ++ " | Experience: " ++ str_int experience ++ card_tail.

Definition prediction_card (prediction : float) (age experience : Z)
  : M unit :=
  emit (Columns [1; 2; 1]) ;;
  within (Column 2)
    (emit (Markdown (prediction_card_html prediction age experience) true)).

(** The red star added to both figures. *)
Definition overlay (x : Z) (prediction : float) : Plotly.trace :=
  Plotly.go_scatter (Plotly.SInt x) (Plotly.SFloat prediction)
    15 "red" "star" "Predicted Employee".

Definition fig1 (data : Pandas.DataFrame) (experience : Z)
  (prediction : float) : M Plotly.figure :=
  fig <- scatter data "Year of Experience" "Current Salary" "Age"
           "Salary vs Experience" "#1f77b4" ;;
  ret (Plotly.update_layout
         (Plotly.add_trace fig (overlay experience prediction))
         400 true "Years of Experience" "Salary ($)").

Definition fig2 (data : Pandas.DataFrame) (age : Z) (prediction : float)
  : M Plotly.figure :=
  fig <- scatter data "Age" "Current Salary" "Year of Experience"
           "Salary vs Age" "#ff7f0e" ;;
  ret (Plotly.update_layout
         (Plotly.add_trace fig (overlay age prediction))
         400 true "Age" "Salary ($)").

Definition enhanced_visualizations (data : Pandas.DataFrame)
  (age experience : Z) (prediction : float) : M unit :=
  emit (Columns [1; 1]) ;;
  within (Column 1)
    (emit (Subheader "📈 Salary Distribution") ;;
     fig <- fig1 data experience prediction ;;
     emit (PlotlyChart fig true)) ;;
  within (Column 2)
    (emit (Subheader "📊 Age vs Salary") ;;
     fig <- fig2 data age prediction ;;
     emit (PlotlyChart fig true)).

(** [diff_percent = ((prediction - data['Current Salary'].mean())
                     / data['Current Salary'].mean()) * 100] *)
Definition diff_percent (data : Pandas.DataFrame) (prediction : float)
  : M float :=
  salary <- column data "Current Salary" ;;
  subtrahend <- mean_of salary ;;
  salary <- column data "Current Salary" ;;
  divisor <- mean_of salary ;;
  ret (mul (div (sub prediction subtrahend) divisor) (of_Z 100)).

Definition statistics_section (data : Pandas.DataFrame) (prediction : float)
  : M unit :=
  emit (Subheader "📋 Quick Statistics") ;;
  emit (Columns [1; 1; 1; 1]) ;;
  within (Column 1)
    (salary <- column data "Current Salary" ;;
     mean <- mean_of salary ;;
     emit (Metric "Dataset Mean Salary" (currency mean))) ;;
  within (Column 2)
    (salary <- column data "Current Salary" ;;
     max <- max_of salary ;;
     emit (Metric "Dataset Max Salary" (currency max))) ;;
  within (Column 3)
    (emit (Metric "Predicted Salary" (currency prediction))) ;;
  within (Column 4)
    (d <- diff_percent data prediction ;;
     emit (Metric "Vs Mean" (percent d))).

(** The body of [if predict_btn:]. *)
Definition main_content_area (model : obj Model)
  (data : obj Pandas.DataFrame) (age experience : Z) : M unit :=
  p <- prediction model age experience ;;
  prediction_card p age experience ;;
  emit (Markdown "---" false) ;;
  enhanced_visualizations (oval data) age experience p ;;
  statistics_section (oval data) p.

(** ** Dataset Preview Section *)

Definition dataset_overview (data : Pandas.DataFrame) : M unit :=
  emit (ExpanderBox "📁 Dataset Overview" false) ;;
  within (Expander "📁 Dataset Overview")
    (emit (Tabs ["📊 Preview"; "📈 Statistics"; "🔍 Data Info"]) ;;
     within (Tab "📊 Preview")
       (emit (Subheader "First 10 Records") ;;
        emit (DataFrameView (Pandas.Frame (Pandas.head 10 data)) true)) ;;
     within (Tab "📈 Statistics")
       (emit (Subheader "Statistical Summary") ;;
        summary <- describe data ;;
        emit (DataFrameView summary true)) ;;
     within (Tab "🔍 Data Info")
       (emit (Subheader "Dataset Information") ;;
        emit (Columns [1; 1]) ;;
        within (Column 1)
          (emit (Metric "Total Records" (str_int (Pandas.len data))) ;;
           emit (Metric "Columns" (str_int (Pandas.n_columns data)))) ;;
        within (Column 2)
          (emit (Metric "Data Types" (Pandas.str_dtypes data)) ;;
           emit (Metric "Missing Values"
                   (str_int (Pandas.isnull_sum_sum data)))))).

Definition dataset_preview_section (data : Pandas.DataFrame) : M unit :=
  emit (Markdown "---" false) ;;
  dataset_overview data.

(** ** Footer *)

Definition footer_html : string :=
"
---
<div style='text-align: center; color: #666;'>
    <p>🔹 Developed by Hiba Ali | 💡 Powered by Gradient Boosting Regression</p>
    <p style='font-size: 0.8rem;'>HR Analytics Dashboard v1.0</p>
</div>
".

Definition footer : M unit := emit (Markdown footer_html true).

(** ** Main content and dataset preview, as the script runs them once
    the inputs are read *)

Definition renderer (model : obj Model) (data : obj Pandas.DataFrame)
  (age experience : Z) (predict_btn : bool) : M unit :=
  (if predict_btn
   then main_content_area model data age experience
   else ret tt) ;;
  dataset_preview_section (oval data).

(** ** The whole script, top to bottom *)

Definition script (fs : files) (ui : session) : M unit :=
  page_configuration ;;
  custom_css_styling ;;
  md <- load_resources fs ;;
  header_section ;;
  inputs <- sidebar_for_inputs ui (snd md) ;;
  (let '(age, experience, predict_btn) := inputs in
   renderer (fst md) (snd md) age experience predict_btn) ;;
  footer.

(** One render cycle in a process: how the run ended, the page it left,
    the calls of [model.predict] it made, and the process afterwards. *)
Definition render (fs : files) (ui : session) (p : process)
  : outcome unit * run_state :=
  script fs ui (start p).

End App.

Import App.

(* ================================================================== *)
(** * Concrete processes, files and sessions                           *)
(* ================================================================== *)

Module Scenario.

(** The texts of the library exceptions in the concrete processes
    below, as recent releases of numpy, pandas and plotly word them for
    plain column names.  The statements about every process leave the
    texts open. *)
Definition quoted (names : list string) : string :=
  "[" ++ String.concat ", " (map (fun n => "'" ++ n ++ "'") names) ++ "]".

Definition texts_of (c : Pandas.Series) : string :=
  String.concat ""
    (flat_map (fun v =>
                 match v with
                 | Pandas.Str t => [t]
                 | Pandas.Num _ => []
                 end) (Pandas.values c)).

Definition release_texts (f : failure) : string :=
  match f with
  | EmptyOutput => "index 0 is out of bounds for axis 0 with size 0"
  | NoSuchKey _ key => "'" ++ key ++ "'"
  | NoSuchColumn df x y h =>
      let missing (k : string) :=
        match Pandas.getitem df k with None => true | Some _ => false end in
      let '(field, argument) :=
        if missing x then ("x", x)
        else if missing y then ("y", y)
        else ("hover_data_0", h) in
      "Value of '" ++ field
      ++ "' is not the name of a column in 'data_frame'. Expected one of "
      ++ quoted (map Pandas.name df) ++ " but received: " ++ argument
  | NotNumeric c =>
      "Could not convert string '" ++ texts_of c ++ "' to numeric"
  | NotOrdered _ =>
      "'>=' not supported between instances of 'str' and 'float'"
  | NotFormattable _ => "Unknown format code 'f' for object of type 'str'"
  | NoColumns => "Cannot describe a DataFrame without columns"
  end.

(** A new process: nothing cached, nothing read. *)
Definition fresh_process : process :=
  {| resource_cache := None; data_cache := None; next_id := O; reads := [];
     texts := release_texts |}.

Definition shape_error : exn :=
  {| exn_class := "ValueError";
     exn_str := "X has a different number of features than the model expects" |}.

(** The stub regressor: [10000 + 2000*experience + 500*age] per row. *)
Definition stub_row (row : list Z) : exn + float :=
  match row with
  | [age; experience] => inr (of_Z (10000 + 2000 * experience + 500 * age))
  | _ => inl shape_error
  end.

Fixpoint stub_predict (X : list (list Z)) : exn + list float :=
  match X with
  | [] => inr []
  | row :: rest =>
      match stub_row row, stub_predict rest with
      | inr y, inr out => inr (y :: out)
      | inl e, _ => inl e
      | _, inl e => inl e
      end
  end.

Definition stub_model : Model := {| predict := stub_predict |}.

Definition int_series (label : string) (cells : list Z) : Pandas.Series :=
  {| Pandas.name := label; Pandas.dtype_of := Pandas.int64;
     Pandas.values := map (fun z => Pandas.Num (of_Z z)) cells |}.

Definition frame (ages experiences salaries : list Z) : Pandas.DataFrame :=
  [ int_series "Age" ages;
    int_series "Year of Experience" experiences;
    int_series "Current Salary" salaries ].

(** [{Age:25, Exp:2, Salary:40000}, {Age:40, Exp:15, Salary:90000}] *)
Definition two_rows : Pandas.DataFrame :=
  frame [25; 40] [2; 15] [40000; 90000].

(** One record with a salary of 50000. *)
Definition one_row : Pandas.DataFrame := frame [30] [5] [50000].

(** Two records without pay: the mean salary is zero. *)
Definition unpaid : Pandas.DataFrame := frame [25; 40] [2; 15] [0; 0].

(** A model that answers NaN for every row. *)
Definition nan_model : Model :=
  {| predict := fun X => inr (map (fun _ => nan) X) |}.

(** The smallest negative float, [-5e-324]. *)
Definition tiny_negative : float := S754_finite true 1 (-1074).

Definition float_series (label : string) (cells : list float)
  : Pandas.Series :=
  {| Pandas.name := label; Pandas.dtype_of := Pandas.float64;
     Pandas.values := map Pandas.Num cells |}.

(** Three records whose salaries are [-5e-324], 0 and 0: the mean is
    the negative zero. *)
Definition nearly_unpaid : Pandas.DataFrame :=
  [ int_series "Age" [25; 40; 30];
    int_series "Year of Experience" [2; 15; 5];
    float_series "Current Salary" [tiny_negative; zero; zero] ].

Definition not_found (path : string) : exn :=
  {| exn_class := "FileNotFoundError";
     exn_str := "[Errno 2] No such file or directory: '" ++ path ++ "'" |}.

Definition disk (d : Pandas.DataFrame) : files :=
  {| joblib_file := fun path =>
       if String.eqb path "gradient_boosting_model.pkl"
       then inr stub_model else inl (not_found path);
     excel_file := fun path =>
       if String.eqb path "salary_dataset.xlsx"
       then inr d else inl (not_found path) |}.

Definition empty_disk : files :=
  {| joblib_file := fun path => inl (not_found path);
     excel_file := fun path => inl (not_found path) |}.

(** The page as first opened: nothing moved, nothing pressed. *)
Definition untouched : session :=
  {| slider_state := fun _ => None; button_pressed := fun _ => false |}.

(** Sliders at [age] and [experience], the button just pressed. *)
Definition pressed (age experience : Z) : session :=
  {| slider_state := fun label =>
       if String.eqb label "**Age**" then Some age
       else if String.eqb label "**Years of Experience**" then Some experience
       else None;
     button_pressed := fun label => String.eqb label "🎯 Predict Salary" |}.

End Scenario.

Import Scenario.


(* ================================================================== *)
(** * Vocabulary of the properties                                     *)
(* ================================================================== *)

Module Props.

(** The domains of the two controls. *)
Definition in_domain (age experience : Z) : Prop :=
  18 <= age <= 65 /\ 0 <= experience <= 50.

(** [(prediction - mean) / mean * 100], in the words of the
    specification. *)
Definition deviation (prediction mean : float) : float :=
  mul (div (sub prediction mean) mean) (of_Z 100).

(** The frame has the three columns the script names, and the salaries
    are numbers (or missing). *)
Definition has_columns (data : Pandas.DataFrame)
  (ages experiences salaries : Pandas.Series) : Prop :=
  Pandas.getitem data "Age" = Some ages
  /\ Pandas.getitem data "Year of Experience" = Some experiences
  /\ Pandas.getitem data "Current Salary" = Some salaries
  /\ Pandas.has_text salaries = false.

Definition is_chart (e : element) : bool :=
  match e with PlotlyChart _ _ => true | _ => false end.

Definition summary_labels : list string :=
  ["Dataset Mean Salary"; "Dataset Max Salary"; "Predicted Salary"; "Vs Mean"].

Definition is_summary_metric (e : element) : bool :=
  match e with
  | Metric label _ => existsb (String.eqb label) summary_labels
  | _ => false
  end.

Definition count (f : element -> bool) (pg : list (block * element)) : nat :=
  List.length (filter (fun be => f (snd be)) pg).

(** The Dataset Preview Section rendered in block [b]: the rule, then
    the expander with the first ten records, the statistical summary and
    the shape, types and missing-value count. *)
Definition overview_panel (b : block) (data : Pandas.DataFrame)
  : list (block * element) :=
  let ex := Expander "📁 Dataset Overview" b in
  let info := Tab "🔍 Data Info" ex in
  [ (b, Markdown "---" false);
    (b, ExpanderBox "📁 Dataset Overview" false);
    (ex, Tabs ["📊 Preview"; "📈 Statistics"; "🔍 Data Info"]);
    (Tab "📊 Preview" ex, Subheader "First 10 Records");
    (Tab "📊 Preview" ex,
     DataFrameView (Pandas.Frame (Pandas.head 10 data)) true);
    (Tab "📈 Statistics" ex, Subheader "Statistical Summary");
    (Tab "📈 Statistics" ex, DataFrameView (Pandas.Describe data) true);
    (info, Subheader "Dataset Information");
    (info, Columns [1; 1]);
    (Column 1 info, Metric "Total Records" (str_int (Pandas.len data)));
    (Column 1 info, Metric "Columns" (str_int (Pandas.n_columns data)));
    (Column 2 info, Metric "Data Types" (Pandas.str_dtypes data));
    (Column 2 info,
     Metric "Missing Values" (str_int (Pandas.isnull_sum_sum data))) ].

(** The two figures: the base series over the frame's columns, then the
    overlay point at [(x, prediction)], then the layout. *)
Definition chart (cx cy ch : Pandas.Series) (xname hname ttl colour : string)
  (x : Z) (prediction : float) (xtitle : string) : Plotly.figure :=
  {| Plotly.traces :=
       [ {| Plotly.xs := Plotly.coordinates cx;
            Plotly.ys := Plotly.coordinates cy;
            Plotly.hover := [(hname, Plotly.coordinates ch)];
            Plotly.mode := "markers";
            Plotly.trace_marker :=
              {| Plotly.size := None; Plotly.color := colour;
                 Plotly.symbol := None |};
            Plotly.trace_name := "" |};
         {| Plotly.xs := [Plotly.SInt x];
            Plotly.ys := [Plotly.SFloat prediction];
            Plotly.hover := [];
            Plotly.mode := "markers";
            Plotly.trace_marker :=
              {| Plotly.size := Some 15; Plotly.color := "red";
                 Plotly.symbol := Some "star" |};
            Plotly.trace_name := "Predicted Employee" |} ];
     Plotly.fig_layout :=
       {| Plotly.title := ttl; Plotly.xaxis_title := xtitle;
          Plotly.yaxis_title := "Salary ($)"; Plotly.height := Some 400;
          Plotly.showlegend := Some true |} |}.

Definition chart1 (ages experiences salaries : Pandas.Series)
  (experience : Z) (prediction : float) : Plotly.figure :=
  chart experiences salaries ages "Year of Experience" "Age"
    "Salary vs Experience" "#1f77b4" experience prediction
    "Years of Experience".

Definition chart2 (ages experiences salaries : Pandas.Series)
  (age : Z) (prediction : float) : Plotly.figure :=
  chart ages salaries experiences "Age" "Year of Experience"
    "Salary vs Age" "#ff7f0e" age prediction "Age".

(** The Main Content Area rendered in block [b] for a prediction. *)
Definition main_panel (b : block) (ages experiences salaries : Pandas.Series)
  (age experience : Z) (prediction : float) : list (block * element) :=
  [ (b, Columns [1; 2; 1]);
    (Column 2 b, Markdown (prediction_card_html prediction age experience) true);
    (b, Markdown "---" false);
    (b, Columns [1; 1]);
    (Column 1 b, Subheader "📈 Salary Distribution");
    (Column 1 b,
     PlotlyChart (chart1 ages experiences salaries experience prediction) true);
    (Column 2 b, Subheader "📊 Age vs Salary");
    (Column 2 b,
     PlotlyChart (chart2 ages experiences salaries age prediction) true);
    (b, Subheader "📋 Quick Statistics");
    (b, Columns [1; 1; 1; 1]);
    (Column 1 b, Metric "Dataset Mean Salary" (currency (Pandas.mean salaries)));
    (Column 2 b, Metric "Dataset Max Salary" (currency (Pandas.max salaries)));
    (Column 3 b, Metric "Predicted Salary" (currency prediction));
    (Column 4 b,
     Metric "Vs Mean" (percent (deviation prediction (Pandas.mean salaries)))) ].

(** The labels of the summary metrics on a page, in page order. *)
Definition summary_metrics_shown (pg : list (block * element)) : list string :=
  flat_map (fun be =>
              match snd be with
              | Metric l _ =>
                  if existsb (String.eqb l) summary_labels then [l] else []
              | _ => []
              end) pg.

(** The overlay points of the charts on a page, in page order. *)
Definition overlays_shown (pg : list (block * element))
  : list (list Plotly.scalar * list Plotly.scalar) :=
  flat_map (fun be =>
              match snd be with
              | PlotlyChart f _ =>
                  match rev (Plotly.traces f) with
                  | t :: _ => [(Plotly.xs t, Plotly.ys t)]
                  | [] => []
                  end
              | _ => []
              end) pg.

(** The prediction cards on a page: the markdown bodies that open as the
    card does. *)
Definition cards_shown (pg : list (block * element)) : list string :=
  flat_map (fun be =>
              match snd be with
              | Markdown body _ =>
                  if String.prefix card_head body then [body] else []
              | _ => []
              end) pg.

(** The value each metric labelled [label] shows on a page. *)
Definition metric_values (label : string) (pg : list (block * element))
  : list string :=
  flat_map (fun be =>
              match snd be with
              | Metric l v => if String.eqb l label then [v] else []
              | _ => []
              end) pg.

(** What the Vs Mean metric of the statistics section shows. *)
Definition vs_mean_shown (data : Pandas.DataFrame) (prediction : float)
  : list string :=
  metric_values "Vs Mean"
    (page (snd (statistics_section data prediction (start fresh_process)))).

(** What the script renders before it loads the resources. *)
Definition preamble : list (block * element) :=
  [ (Main, PageConfig "💼 HR Salary Prediction Dashboard" "💰" "wide" "expanded");
    (Main, Markdown css true) ].

(** The page of a run, and the process it leaves. *)
Definition page_of (r : outcome unit * run_state) : list (block * element) :=
  page (snd r).

Definition process_of (r : outcome unit * run_state) : process :=
  proc (snd r).

End Props.

Import Props.

(* ================================================================== *)
(** * Vocabulary of runs, invariants and rendered numbers              *)
(* ================================================================== *)

Module Invariants.

(** The script from the Header Section on, once the resources are
    loaded: [script] is the page configuration, the style sheet and
    [load_resources], followed by this. *)
Definition after_loading (ui : session)
  (md : obj Model * obj Pandas.DataFrame) : M unit :=
  (header_section ;;
   inputs <- sidebar_for_inputs ui (snd md) ;;
   (let '(age, experience, predict_btn) := inputs in
    renderer (fst md) (snd md) age experience predict_btn) ;;
   footer)%run.

(** [m] relates every state it is started in to the state it leaves,
    however it ends. *)
Definition preserves {A : Type} (R : run_state -> run_state -> Prop)
  (m : M A) : Prop :=
  forall s, R s (snd (m s)).

Definition same_process (s s' : run_state) : Prop := proc s' = proc s.

Definition same_calls (s s' : run_state) : Prop :=
  predict_calls s' = predict_calls s.

(** The page only grows: what was rendered stays, in place. *)
Definition page_grows (s s' : run_state) : Prop :=
  exists added, page s' = (page s ++ added)%list.

Definition is_footer (e : element) : bool :=
  match e with
  | Markdown body true => String.eqb body footer_html
  | _ => false
  end.

Definition footers (pg : list (block * element)) : list (block * element) :=
  filter (fun be => is_footer (snd be)) pg.

Definition same_footers (s s' : run_state) : Prop :=
  footers (page s') = footers (page s).

(** [m] may end normally or raise, but never stops the run. *)
Definition never_stops {A : Type} (m : M A) : Prop :=
  forall s, fst (m s) <> Stopped.

(** Two states that differ at most in the caches, the object counter and
    the files read: the same page, the same block, the same calls of the
    model and the same libraries. *)
Definition alike (s1 s2 : run_state) : Prop :=
  page s1 = page s2 /\ here s1 = here s2
  /\ predict_calls s1 = predict_calls s2
  /\ texts (proc s1) = texts (proc s2).

(** [m] does not look at the caches: started in two states that are
    alike it ends the same way in two states that are alike. *)
Definition blind {A : Type} (m : M A) : Prop :=
  forall s1 s2, alike s1 s2 ->
    fst (m s1) = fst (m s2) /\ alike (snd (m s1)) (snd (m s2)).

(** Both cache entries are filled. *)
Definition warm (p : process) : Prop :=
  exists m d, resource_cache p = Some m /\ data_cache p = Some d.

(** The text without its commas. *)
Definition strip_commas (s : string) : string :=
  string_of_list_ascii
    (filter (fun c => negb (Ascii.eqb c ","%char)) (list_ascii_of_string s)).

Definition digit_value (c : ascii) : Z := Z.of_nat (nat_of_ascii c) - 48.

(** The integer that the digits of a text spell, read from the left;
    every other character is skipped. *)
Definition read_digits (acc : Z) (l : list ascii) : Z :=
  fold_left (fun a c => if is_digit c then 10 * a + digit_value c else a)
    l acc.

Definition digits_value (s : string) : Z :=
  read_digits 0 (list_ascii_of_string s).

(** A minus sign follows the first character of the text. *)
Definition minus_second (s : string) : bool :=
  match list_ascii_of_string s with
  | _ :: c :: _ => Ascii.eqb c "-"%char
  | _ => false
  end.



(** What the two sliders return for a session. *)
Definition age_of (ui : session) : Z :=
  slider_value 18 65 30 (slider_state ui "**Age**").

Definition experience_of (ui : session) : Z :=
  slider_value 0 50 5 (slider_state ui "**Years of Experience**").

(** A disk with the model file but no spreadsheet. *)
Definition disk_without_data : files :=
  {| joblib_file := fun path =>
       if String.eqb path "gradient_boosting_model.pkl"
       then inr stub_model else inl (not_found path);
     excel_file := fun path => inl (not_found path) |}.

(** A model that rejects every input, and a process that has it and the
    two-record dataset cached. *)
Definition broken_model : Model := {| predict := fun _ => inl shape_error |}.

Definition broken_process : process :=
  {| resource_cache := Some {| oid := 0; oval := broken_model |};
     data_cache := Some two_rows;
     next_id := 2;
     reads := [model_path; data_path];
     texts := release_texts |}.

Definition is_table (e : element) : bool :=
  match e with DataFrameView _ _ => true | _ => false end.


(** What the Dataset Preview Section has rendered when the statistical
    summary cannot be computed. *)
Definition up_to_summary (b : block) (data : Pandas.DataFrame)
  : list (block * element) :=
  let ex := Expander "📁 Dataset Overview" b in
  [ (b, Markdown "---" false);
    (b, ExpanderBox "📁 Dataset Overview" false);
    (ex, Tabs ["📊 Preview"; "📈 Statistics"; "🔍 Data Info"]);
    (Tab "📊 Preview" ex, Subheader "First 10 Records");
    (Tab "📊 Preview" ex,
     DataFrameView (Pandas.Frame (Pandas.head 10 data)) true);
    (Tab "📈 Statistics" ex, Subheader "Statistical Summary") ].

(** What a rendered number says about a finite float [m * 2^e], read
    as a count of units of [10^-ndigits]: it is the float exactly when
    that is a whole number of units, and otherwise the nearest count,
    the even one of the two when the float lies half way. *)
Definition nearest (ndigits : nat) (m : positive) (e : Z) (shown : Z) : Prop :=
  let unit := 10 ^ Z.of_nat ndigits in
  0 <= shown
  /\ (0 <= e -> shown = unit * Zpos m * 2 ^ e)
  /\ (e < 0 -> Z.abs (2 * (shown * 2 ^ (- e) - unit * Zpos m)) <= 2 ^ (- e))
  /\ (e < 0 -> 2 * ((unit * Zpos m) mod 2 ^ (- e)) = 2 ^ (- e) ->
      Z.even shown = true).

(** The first character of a text. *)
Definition first_char (s : string) : option ascii :=
  match s with
  | String c _ => Some c
  | EmptyString => None
  end.

(** The sign that the format [+.1f] puts in front: the sign bit of the
    float, and a plus for a NaN. *)
Definition sign_char (x : float) : ascii :=
  match x with
  | S754_nan => "+"%char
  | S754_zero negative | S754_infinity negative
  | S754_finite negative _ _ => if negative then "-"%char else "+"%char
  end.

End Invariants.

Import Invariants.

(* ================================================================== *)
(** * Facts about the format specifications                            *)
(* ================================================================== *)

Lemma digit_is_not_minus (c : ascii) :
  is_digit c = true -> Ascii.eqb c "-"%char = false.
Proof.
  destruct c as [[] [] [] [] [] [] [] []]; vm_compute; congruence.
Qed.

Lemma list_ascii_app (a b : string) :
  list_ascii_of_string (a ++ b)
  = (list_ascii_of_string a ++ list_ascii_of_string b)%list.
Proof.
  induction a as [|c a IH]; simpl; [reflexivity | now rewrite IH].
Qed.

Lemma string_app_assoc (a b c : string) : (a ++ b) ++ c = a ++ (b ++ c).
Proof.
  induction a as [|x a IH]; simpl; [reflexivity | now rewrite IH].
Qed.

Lemma uint_digits (d : Decimal.uint) :
  forallb is_digit (list_ascii_of_string (NilEmpty.string_of_uint d)) = true.
Proof.
  induction d; simpl; auto.
Qed.

Lemma uint_nonempty (d : Decimal.uint) :
  d <> Decimal.Nil ->
  list_ascii_of_string (NilEmpty.string_of_uint d) <> [].
Proof.
  destruct d; simpl; congruence.
Qed.

Lemma digits_of_N_digits (n : N) :
  forallb is_digit (list_ascii_of_string (digits_of_N n)) = true.
Proof. apply uint_digits. Qed.

Lemma digits_of_N_nonempty (n : N) :
  list_ascii_of_string (digits_of_N n) <> [].
Proof.
  apply uint_nonempty. destruct n as [|p]; simpl.
  - discriminate.
  - apply Unsigned.to_uint_nonnil.
Qed.

Lemma decimal_digit (r : Z) :
  0 <= r < 10 -> is_digit (ascii_of_nat (48 + Z.to_nat r)) = true.
Proof.
  intros H.
  assert (E : r = 0 \/ r = 1 \/ r = 2 \/ r = 3 \/ r = 4 \/ r = 5 \/ r = 6
              \/ r = 7 \/ r = 8 \/ r = 9) by lia.
  repeat (destruct E as [E|E]; [subst r; reflexivity|]).
  subst r; reflexivity.
Qed.

Lemma frac_digits_two (n : Z) :
  exists c1 c2,
    list_ascii_of_string (frac_digits 2 n) = [c1; c2]
    /\ is_digit c1 = true /\ is_digit c2 = true.
Proof.
  exists (ascii_of_nat (48 + Z.to_nat ((n / 10) mod 10))),
         (ascii_of_nat (48 + Z.to_nat (n mod 10))).
  repeat split.
  - apply decimal_digit, Z.mod_pos_bound; lia.
  - apply decimal_digit, Z.mod_pos_bound; lia.
Qed.

Lemma frac_digits_one (n : Z) :
  exists c1,
    list_ascii_of_string (frac_digits 1 n) = [c1] /\ is_digit c1 = true.
Proof.
  exists (ascii_of_nat (48 + Z.to_nat (n mod 10))).
  split; [reflexivity|].
  apply decimal_digit, Z.mod_pos_bound; lia.
Qed.

(** The grouping of a non-empty run of digits is well grouped, and it
    keeps the most significant digit in front. *)
Lemma group_rev_grouped (n : nat) :
  forall l, (List.length l <= n)%nat -> l <> [] ->
    forallb is_digit l = true ->
    grouped_rev (group_rev l) = true.
Proof.
  induction n as [|n IH]; intros l Hlen Hne Hd.
  - destruct l; [congruence | simpl in Hlen; lia].
  - destruct l as [|a [|b [|c [|d l4]]]]; try congruence.
    + simpl in Hd |- *. exact Hd.
    + simpl in Hd |- *. exact Hd.
    + simpl in Hd |- *. exact Hd.
    + change (group_rev (a :: b :: c :: d :: l4))
        with (a :: b :: c :: ","%char :: group_rev (d :: l4)).
      change (forallb is_digit (a :: b :: c :: d :: l4))
        with (is_digit a && (is_digit b && (is_digit c
               && forallb is_digit (d :: l4)))) in Hd.
      apply andb_prop in Hd. destruct Hd as [Ha Hd].
      apply andb_prop in Hd. destruct Hd as [Hb Hd].
      apply andb_prop in Hd. destruct Hd as [Hc Hd].
      change (is_digit a && (is_digit b && (is_digit c
               && (Ascii.eqb ","%char ","%char
                   && grouped_rev (group_rev (d :: l4))))) = true).
      rewrite Ha, Hb, Hc. cbn [andb Ascii.eqb Bool.eqb].
      apply IH; [simpl in Hlen |- *; lia | congruence | exact Hd].
Qed.

Lemma group_rev_last (n : nat) :
  forall l x, (List.length l <= n)%nat ->
    last (group_rev l) x = last l x.
Proof.
  induction n as [|n IH]; intros l x Hlen.
  - destruct l; [reflexivity | simpl in Hlen; lia].
  - destruct l as [|a [|b [|c [|d l4]]]]; try reflexivity.
    change (last (a :: b :: c :: ","%char :: group_rev (d :: l4)) x
            = last (a :: b :: c :: d :: l4) x).
    transitivity (last (group_rev (d :: l4)) x).
    + remember (group_rev (d :: l4)) as g eqn:Eg.
      destruct g as [|g0 g]; [|reflexivity].
      simpl in Eg. destruct l4 as [|? [|? [|? ?]]]; discriminate.
    + rewrite IH by (simpl in Hlen |- *; lia). reflexivity.
Qed.

Lemma last_digit (l : list ascii) (x : ascii) :
  l <> [] -> forallb is_digit l = true -> is_digit (last l x) = true.
Proof.
  intros Hne Hd.
  destruct (exists_last Hne) as (l' & c & ->).
  rewrite last_last. rewrite forallb_app in Hd.
  apply andb_prop in Hd. destruct Hd as [_ Hd]. simpl in Hd.
  now apply andb_prop in Hd.
Qed.

(** The grouped integer part, read from the left: it starts with a digit
    and its reverse is well grouped. *)
Lemma group_thousands_shape (n : N) :
  exists c t,
    list_ascii_of_string (group_thousands (digits_of_N n)) = c :: t
    /\ is_digit c = true
    /\ grouped_rev (rev (c :: t)) = true.
Proof.
  unfold group_thousands.
  rewrite list_ascii_of_string_of_list_ascii.
  set (ip := list_ascii_of_string (digits_of_N n)).
  assert (Hne : rev ip <> []).
  { intro E. apply (f_equal (@rev ascii)) in E. rewrite rev_involutive in E.
    now apply (digits_of_N_nonempty n). }
  assert (Hd : forallb is_digit (rev ip) = true).
  { apply forallb_forall. intros c Hc. apply in_rev in Hc.
    pose proof (digits_of_N_digits n) as H.
    rewrite forallb_forall in H. now apply H. }
  assert (Hg := group_rev_grouped _ (rev ip) (Nat.le_refl _) Hne Hd).
  assert (Hl := group_rev_last _ (rev ip) "0"%char (Nat.le_refl _)).
  remember (group_rev (rev ip)) as g eqn:Eg.
  assert (Hgne : g <> []).
  { intro E. subst g. rewrite E in Hg. discriminate. }
  destruct (exists_last Hgne) as (g' & c & E).
  exists c, (rev g'). rewrite E, rev_app_distr. simpl.
  repeat split.
  - rewrite E, last_last in Hl. rewrite Hl. now apply last_digit.
  - cbn [rev]. rewrite rev_involutive, <- E. exact Hg.
Qed.

Lemma fixed_digits_currency (n : Z) :
  exists c t c1 c2,
    list_ascii_of_string (fixed_digits true 2 n)
    = ((c :: t) ++ ["."%char; c1; c2])%list
    /\ is_digit c = true /\ grouped_rev (rev (c :: t)) = true
    /\ is_digit c1 = true /\ is_digit c2 = true.
Proof.
  unfold fixed_digits.
  destruct (group_thousands_shape (Z.to_N (n / 10 ^ Z.of_nat 2)))
    as (c & t & E & Hc & Hg).
  destruct (frac_digits_two n) as (c1 & c2 & Ef & H1 & H2).
  exists c, t, c1, c2.
  rewrite !list_ascii_app, E, Ef. simpl. auto.
Qed.

Lemma currency_text_shape (negative : bool) (n : Z) :
  is_currency_text ("$" ++ sign_str false negative ++ fixed_digits true 2 n)
  = true.
Proof.
  destruct (fixed_digits_currency n) as (c & t & c1 & c2 & E & Hc & Hg & H1 & H2).
  unfold is_currency_text.
  rewrite !list_ascii_app, E.
  assert (Hbody : drop_minus
            (list_ascii_of_string (sign_str false negative)
             ++ (c :: t) ++ ["."%char; c1; c2])%list
          = ((c :: t) ++ ["."%char; c1; c2])%list).
  { destruct negative; simpl; [reflexivity|].
    now rewrite (digit_is_not_minus c Hc). }
  change (list_ascii_of_string "$") with ["$"%char].
  cbn [app]. rewrite Ascii.eqb_refl. cbn [andb].
  cbn [app] in Hbody. rewrite Hbody.
  change (c :: (t ++ ["."%char; c1; c2])%list)
    with ((c :: t) ++ ["."%char; c1; c2])%list.
  rewrite rev_app_distr.
  change (rev ["."%char; c1; c2]) with [c2; c1; "."%char].
  cbn [app]. rewrite H1, H2, Hg. reflexivity.
Qed.

Lemma fixed_digits_percent (n : Z) :
  exists ip c1,
    list_ascii_of_string (fixed_digits false 1 n)
    = (ip ++ ["."%char; c1])%list
    /\ ip <> [] /\ forallb is_digit ip = true /\ is_digit c1 = true.
Proof.
  unfold fixed_digits.
  destruct (frac_digits_one n) as (c1 & Ef & H1).
  exists (list_ascii_of_string (digits_of_N (Z.to_N (n / 10 ^ Z.of_nat 1)))), c1.
  rewrite !list_ascii_app, Ef. simpl.
  repeat split; auto using digits_of_N_nonempty, digits_of_N_digits.
Qed.

Lemma percent_text_shape (negative : bool) (n : Z) :
  is_percent_text (sign_str true negative ++ fixed_digits false 1 n ++ "%")
  = true.
Proof.
  destruct (fixed_digits_percent n) as (ip & c1 & E & Hne & Hd & H1).
  unfold is_percent_text.
  rewrite !list_ascii_app, E.
  change (list_ascii_of_string "%") with ["%"%char].
  assert (Hr : rev ((ip ++ ["."%char; c1]) ++ ["%"%char])%list
               = "%"%char :: c1 :: "."%char :: rev ip).
  { rewrite !rev_app_distr. reflexivity. }
  assert (Hl : Nat.eqb (List.length (rev ip)) 0 = false).
  { apply Nat.eqb_neq. rewrite length_rev. destruct ip; [congruence|simpl; lia]. }
  assert (Hdr : all_digits (rev ip) = true).
  { apply forallb_forall. intros c Hc. apply in_rev in Hc.
    rewrite forallb_forall in Hd. now apply Hd. }
  destruct negative; cbn [sign_str list_ascii_of_string app];
    rewrite Hr, H1, Hdr, Hl; reflexivity.
Qed.

(** Reference values: the texts CPython gives for these floats. *)
Example format_reference_values :
  format_f false true 2 (div (of_Z 2675) (of_Z 1000)) = "2.67"
  /\ format_f false false 2 (div (of_Z 1) (of_Z 8)) = "0.12"
  /\ format_f true false 1 (div (of_Z 15) (of_Z 100)) = "+0.1"
  /\ format_f true false 1 (div (of_Z 25) (of_Z 100)) = "+0.2"
  /\ format_f false true 2 (div (of_Z 999995) (of_Z 1000)) = "1,000.00"
  /\ format_f false true 2 (div (of_Z 999999995) (of_Z 1000)) = "999,999.99"
  /\ format_f false true 2 (of_Z (10 ^ 22))
     = "10,000,000,000,000,000,000,000.00"
  /\ format_f false true 2 (S754_zero true) = "-0.00"
  /\ format_f true false 1 (div (of_Z (-1)) (of_Z 1000)) = "-0.0"
  /\ format_f true false 1 nan = "+nan"
  /\ format_f true false 1 neg_inf = "-inf"
  /\ format_int_comma 1234567 = "1,234,567".
Proof. vm_compute. repeat split; reflexivity. Qed.

(** A value that is not finite has no digits to group: the mean of an
    empty column is NaN and renders as such. *)
Example currency_of_empty_column :
  Pandas.mean (int_series "Current Salary" []) = nan
  /\ currency nan = "$nan"
  /\ is_currency_text "$nan" = false.
Proof. vm_compute. repeat split; reflexivity. Qed.

(** ** Reading a rendered number back *)

Lemma group_rev_filter (f : ascii -> bool) (n : nat) :
  f ","%char = false ->
  forall l, (List.length l <= n)%nat -> forallb f l = true ->
    filter f (group_rev l) = l.
Proof.
  intros Hc. induction n as [|n IH]; intros l Hlen Hf.
  - destruct l; [reflexivity | simpl in Hlen; lia].
  - destruct l as [|a [|b [|c [|d l4]]]];
      try (simpl in Hf |- *;
           repeat (apply andb_prop in Hf; destruct Hf as [-> Hf]);
           reflexivity).
    change (group_rev (a :: b :: c :: d :: l4))
      with (a :: b :: c :: ","%char :: group_rev (d :: l4)).
    change (forallb f (a :: b :: c :: d :: l4))
      with (f a && (f b && (f c && forallb f (d :: l4)))) in Hf.
    apply andb_prop in Hf. destruct Hf as [Ha Hf].
    apply andb_prop in Hf. destruct Hf as [Hb Hf].
    apply andb_prop in Hf. destruct Hf as [Hc' Hf].
    cbn [filter]. rewrite Ha, Hb, Hc', Hc.
    rewrite IH; [reflexivity | simpl in Hlen |- *; lia | exact Hf].
Qed.

Lemma digit_is_not_comma (c : ascii) :
  is_digit c = true -> negb (Ascii.eqb c ","%char) = true.
Proof.
  destruct c as [[] [] [] [] [] [] [] []]; vm_compute; congruence.
Qed.

Lemma strip_commas_group (n : N) :
  strip_commas (group_thousands (digits_of_N n)) = digits_of_N n.
Proof.
  unfold strip_commas, group_thousands.
  rewrite list_ascii_of_string_of_list_ascii, filter_rev.
  rewrite (group_rev_filter _ _ eq_refl _ (Nat.le_refl _)).
  - now rewrite rev_involutive, string_of_list_ascii_of_string.
  - apply forallb_forall. intros c Hc. apply in_rev in Hc.
    apply digit_is_not_comma.
    pose proof (digits_of_N_digits n) as H. rewrite forallb_forall in H.
    now apply H.
Qed.

Lemma read_digits_app (acc : Z) (l1 l2 : list ascii) :
  read_digits acc (l1 ++ l2) = read_digits (read_digits acc l1) l2.
Proof. apply fold_left_app. Qed.

Lemma read_digits_filter (l : list ascii) :
  forall acc, read_digits acc (filter is_digit l) = read_digits acc l.
Proof.
  induction l as [|c l IH]; intro acc; [reflexivity|].
  cbn [filter]. unfold read_digits in *. cbn [fold_left].
  destruct (is_digit c) eqn:E; cbn [fold_left]; rewrite ?E; apply IH.
Qed.

Lemma read_uint_acc (d : Decimal.uint) :
  forall acc : positive,
    read_digits (Zpos acc)
      (list_ascii_of_string (NilEmpty.string_of_uint d))
    = Zpos (Pos.of_uint_acc d acc).
Proof.
  induction d; intro acc; cbn [NilEmpty.string_of_uint list_ascii_of_string
                                 Pos.of_uint_acc];
    [reflexivity | ..];
    unfold read_digits in *; cbn [fold_left];
    match goal with
    | |- context [is_digit ?c] =>
        change (is_digit c) with true; cbv iota
    end;
    match goal with
    | |- fold_left _ _ ?a = Zpos (Pos.of_uint_acc _ ?b) =>
        replace a with (Zpos b);
        [ apply IHd
        | match goal with
          | |- _ = _ + digit_value ?c =>
              let v := eval vm_compute in (digit_value c) in
              change (digit_value c) with v
          end; lia ]
    end.
Qed.

Lemma read_uint (d : Decimal.uint) :
  read_digits 0 (list_ascii_of_string (NilEmpty.string_of_uint d))
  = Z.of_N (Pos.of_uint d).
Proof.
  induction d; cbn [NilEmpty.string_of_uint list_ascii_of_string Pos.of_uint];
    [reflexivity | exact IHd | ..];
    unfold read_digits; cbn [fold_left];
    match goal with
    | |- context [is_digit ?c] =>
        change (is_digit c) with true; cbv iota
    end;
    apply read_uint_acc.
Qed.

Lemma read_digits_of_N (n : N) :
  read_digits 0 (list_ascii_of_string (digits_of_N n)) = Z.of_N n.
Proof.
  unfold digits_of_N. rewrite read_uint.
  change (Pos.of_uint (N.to_uint n)) with (N.of_uint (N.to_uint n)).
  now rewrite DecimalN.Unsigned.of_to.
Qed.

Lemma read_grouped (n : N) :
  read_digits 0 (list_ascii_of_string (group_thousands (digits_of_N n)))
  = Z.of_N n.
Proof.
  rewrite <- read_digits_filter. unfold group_thousands.
  rewrite list_ascii_of_string_of_list_ascii, filter_rev.
  rewrite (group_rev_filter _ _ eq_refl _ (Nat.le_refl _)).
  - rewrite rev_involutive. apply read_digits_of_N.
  - apply forallb_forall. intros c Hc. apply in_rev in Hc.
    pose proof (digits_of_N_digits n) as H. rewrite forallb_forall in H.
    now apply H.
Qed.

Lemma decimal_digit_value (r : Z) :
  0 <= r < 10 -> digit_value (ascii_of_nat (48 + Z.to_nat r)) = r.
Proof.
  intros H.
  assert (E : r = 0 \/ r = 1 \/ r = 2 \/ r = 3 \/ r = 4 \/ r = 5 \/ r = 6
              \/ r = 7 \/ r = 8 \/ r = 9) by lia.
  repeat (destruct E as [E|E]; [subst r; reflexivity|]).
  subst r; reflexivity.
Qed.

(** The digits of the fixed-point text of [n] hundredths spell [n]. *)
Lemma read_fixed_digits (n : Z) :
  0 <= n ->
  read_digits 0 (list_ascii_of_string (fixed_digits true 2 n)) = n.
Proof.
  intros Hn. unfold fixed_digits.
  rewrite list_ascii_app, read_digits_app, read_grouped.
  cbn [list_ascii_of_string append frac_digits].
  unfold read_digits. cbn [fold_left].
  change (is_digit "."%char) with false. cbv iota.
  rewrite !decimal_digit by (apply Z.mod_pos_bound; lia).
  rewrite !decimal_digit_value by (apply Z.mod_pos_bound; lia).
  rewrite Z2N.id by (apply Z.div_pos; lia).
  change (10 ^ Z.of_nat 2) with 100.
  pose proof (Z.div_mod n 10 ltac:(lia)).
  pose proof (Z.div_mod (n / 10) 10 ltac:(lia)).
  assert (n / 100 = n / 10 / 10) by (rewrite Z.div_div by lia; reflexivity).
  lia.
Qed.

Lemma round_half_even_nearest (n d : Z) :
  0 <= n -> 0 < d ->
  0 <= round_half_even n d
  /\ Z.abs (2 * (round_half_even n d * d - n)) <= d
  /\ (2 * (n mod d) = d -> Z.even (round_half_even n d) = true).
Proof.
  intros Hn Hd. unfold round_half_even.
  pose proof (Z.div_mod n d ltac:(lia)) as E.
  pose proof (Z.mod_pos_bound n d Hd) as B.
  pose proof (Z.div_pos n d Hn Hd) as Q.
  destruct (Z.compare_spec (2 * (n mod d)) d) as [C|C|C].
  - destruct (Z.even (n / d)) eqn:Ev.
    + repeat split; [lia | nia | auto].
    + repeat split; [lia | nia |].
      intros _. rewrite Z.even_add, Ev. reflexivity.
  - repeat split; [lia | nia | lia].
  - repeat split; [lia | nia | lia].
Qed.

(** The digits of the fixed-point text of [n] tenths spell [n]. *)
Lemma read_fixed_tenths (n : Z) :
  0 <= n ->
  read_digits 0 (list_ascii_of_string (fixed_digits false 1 n)) = n.
Proof.
  intros Hn. unfold fixed_digits.
  rewrite list_ascii_app, read_digits_app, read_digits_of_N.
  cbn [list_ascii_of_string append frac_digits].
  unfold read_digits. cbn [fold_left].
  change (is_digit "."%char) with false. cbv iota.
  rewrite !decimal_digit by (apply Z.mod_pos_bound; lia).
  rewrite !decimal_digit_value by (apply Z.mod_pos_bound; lia).
  rewrite Z2N.id by (apply Z.div_pos; lia).
  change (10 ^ Z.of_nat 1) with 10.
  pose proof (Z.div_mod n 10 ltac:(lia)).
  lia.
Qed.

(** The scaled value is the float in units of [10^-ndigits], exactly or
    rounded to the nearest count, ties to even. *)
Lemma scaled_nearest (ndigits : nat) (m : positive) (e : Z) :
  nearest ndigits m e (scaled ndigits m e).
Proof.
  unfold nearest, scaled. cbv zeta.
  assert (Hu : 0 < 10 ^ Z.of_nat ndigits) by (apply Z.pow_pos_nonneg; lia).
  set (u := 10 ^ Z.of_nat ndigits) in *.
  replace (Zpos m * u) with (u * Zpos m) by lia.
  destruct (Z.leb_spec 0 e) as [He|He].
  - assert (0 <= 2 ^ e) by (apply Z.pow_nonneg; lia).
    repeat split; try lia; nia.
  - assert (Hd : 0 < 2 ^ (- e)) by (apply Z.pow_pos_nonneg; lia).
    destruct (round_half_even_nearest (u * Zpos m) (2 ^ (- e))
                ltac:(nia) Hd) as (A & B & C).
    repeat split; auto; lia.
Qed.

Lemma currency_reads_back (negative : bool) (m : positive) (e : Z) :
  digits_value (currency (S754_finite negative m e)) = scaled 2 m e.
Proof.
  unfold digits_value, currency, format_f.
  rewrite !list_ascii_app, !read_digits_app.
  replace (read_digits
             (read_digits 0 (list_ascii_of_string "$"))
             (list_ascii_of_string (sign_str false negative))) with 0
    by (now destruct negative).
  apply read_fixed_digits.
  apply (scaled_nearest 2 m e).
Qed.

Lemma percent_reads_back (negative : bool) (m : positive) (e : Z) :
  digits_value (percent (S754_finite negative m e)) = scaled 1 m e.
Proof.
  unfold digits_value, percent, format_f.
  rewrite !list_ascii_app, !read_digits_app.
  replace (read_digits 0 (list_ascii_of_string (sign_str true negative)))
    with 0 by (now destruct negative).
  rewrite read_fixed_tenths by apply (scaled_nearest 1 m e).
  reflexivity.
Qed.

Lemma currency_minus (negative : bool) (m : positive) (e : Z) :
  minus_second (currency (S754_finite negative m e)) = negative.
Proof.
  unfold minus_second, currency, format_f. rewrite !list_ascii_app.
  destruct (fixed_digits_currency (scaled 2 m e))
    as (c & t & c1 & c2 & -> & Hd & _).
  destruct negative; cbn; [reflexivity | now apply digit_is_not_minus].
Qed.

(** ** The sum of an array *)

Lemma halves_shorter (n : nat) :
  (128 < n)%nat ->
  (0 < n / 2 - (n / 2) mod 8 < n)%nat.
Proof.
  intros H.
  pose proof (Nat.mod_upper_bound (n / 2) 8 ltac:(lia)).
  pose proof (Nat.div_lt n 2 ltac:(lia) ltac:(lia)).
  assert (64 <= n / 2)%nat by (apply Nat.div_le_lower_bound; lia).
  lia.
Qed.

(** The fuel of [pairwise_sum] never runs out: any fuel from the length
    of the array on gives the same sum. *)
Lemma pairwise_sum_fuel (fuel : nat) :
  forall a, (List.length a <= fuel)%nat ->
    Numpy.pairwise_sum fuel a = Numpy.pairwise_sum (List.length a) a.
Proof.
  induction fuel as [fuel IH] using lt_wf_ind. intros a Hlen.
  destruct (Nat.leb_spec (List.length a) 128) as [Hs|Hl].
  - destruct fuel as [|fuel], (List.length a) as [|n] eqn:En;
      cbn [Numpy.pairwise_sum]; rewrite ?En;
      repeat match goal with
             | |- context [(?x <=? 128)%nat] =>
                 replace (x <=? 128)%nat with true
                   by (symmetry; apply Nat.leb_le; lia)
             end; reflexivity.
  - destruct fuel as [|fuel]; [lia|].
    destruct (List.length a) as [|n] eqn:En; [lia|].
    cbn [Numpy.pairwise_sum]. rewrite En.
    replace (S n <=? 128)%nat with false
      by (symmetry; apply Nat.leb_gt; lia).
    pose proof (halves_shorter (S n) Hl) as Hh.
    set (n2 := (S n / 2 - (S n / 2) mod 8)%nat) in *.
    assert (L1 : List.length (firstn n2 a) = n2)
      by (rewrite length_firstn; lia).
    assert (L2 : List.length (skipn n2 a) = (S n - n2)%nat)
      by (rewrite length_skipn; lia).
    rewrite (IH fuel ltac:(lia) (firstn n2 a)) by lia.
    rewrite (IH fuel ltac:(lia) (skipn n2 a)) by lia.
    rewrite (IH n ltac:(lia) (firstn n2 a)) by lia.
    rewrite (IH n ltac:(lia) (skipn n2 a)) by lia.
    reflexivity.
Qed.

(** A column of fewer than eight cells is added in index order. *)
Lemma sum_short (a : list float) :
  (List.length a < 8)%nat -> Numpy.sum a = Numpy.running_sum a.
Proof.
  intros H. unfold Numpy.sum.
  destruct a as [|a0 [|a1 [|a2 [|a3 [|a4 [|a5 [|a6 [|a7 a]]]]]]]];
    try reflexivity.
  simpl in H. lia.
Qed.

(** ** Columns without text *)

Lemma no_value_no_text (c : Pandas.Series) :
  Pandas.notna (Pandas.values c) = [] -> Pandas.has_text c = false.
Proof.
  unfold Pandas.has_text, Pandas.notna.
  induction (Pandas.values c) as [|v l IH]; [reflexivity|].
  cbn [filter existsb]. destruct v as [x|t]; cbn [Pandas.isna Pandas.is_text].
  - destruct (is_nan x); cbn [negb orb]; [exact IH | discriminate].
  - discriminate.
Qed.

Lemma mean_of_text (c : Pandas.Series) :
  Pandas.has_text c = true -> Pandas.mean c = nan.
Proof. intros H. unfold Pandas.mean. now rewrite H. Qed.

(* ================================================================== *)
(** * Running the sections of the script                               *)
(* ================================================================== *)

Create HintDb script.

#[local] Hint Unfold script render renderer main_content_area
  dataset_preview_section dataset_overview statistics_section
  enhanced_visualizations prediction_card prediction diff_percent fig1 fig2
  input_data sidebar_for_inputs header_section load_resources load_model
  load_data page_configuration custom_css_styling footer
  slider button joblib_load read_excel column scatter call_predict
  mean_of max_of describe
  : script.

(** [open_script] unfolds the sections of the script; [step] runs the
    state through them as far as the known values let it go. *)
Ltac open_script := autounfold with script.

(** [open_caches] also unfolds the two cache decorators and the plumbing
    around them, for runs whose cache entries are only known by equations. *)
Ltac open_caches :=
  autounfold with script;
  unfold cache_resource, cache_data, try_except, bind, within, start.

Ltac step :=
  cbn [bind ret raise fail stop emit within try_except with_here with_proc
       new_obj log_read cache_resource cache_data call_predict item0 start
       proc page here predict_calls resource_cache data_cache next_id reads
       texts oid oval fst snd page_of process_of].

Lemma bind_ret {A B} (a : A) (k : A -> M B) : bind (ret a) k = k a.
Proof. reflexivity. Qed.

(** [numeric H] runs the reductions of a column that [H] says has no
    text. *)
Ltac numeric H := repeat (progress (rewrite ?bind_ret, ?H)); step.

(** Membership in a page that was built by appending one element at a
    time. *)
Ltac find_in :=
  repeat match goal with
         | |- In _ (_ ++ [_]) =>
             apply in_or_app; first [right; left; reflexivity | left]
         end.

(** The Dataset Preview Section on a frame that has a column. *)
Lemma dataset_preview_run (data : Pandas.DataFrame) (s : run_state) :
  0 < Pandas.n_columns data ->
  dataset_preview_section data s
  = (Ok tt, {| proc := proc s;
               page := page s ++ overview_panel (here s) data;
               here := here s;
               predict_calls := predict_calls s |}).
Proof.
  intros H. destruct data as [|c data]; [discriminate H|].
  open_script. unfold Pandas.describe. step.
  unfold overview_panel. rewrite <- !app_assoc.
  reflexivity.
Qed.

(** The Dataset Preview Section on a frame without columns: the summary
    fails after the record preview. *)
Lemma dataset_preview_fails (s : run_state) :
  dataset_preview_section [] s
  = (Raise (library_error (proc s) NoColumns),
     {| proc := proc s;
        page := page s ++ up_to_summary (here s) [];
        here := here s;
        predict_calls := predict_calls s |}).
Proof.
  open_script. unfold Pandas.describe. step.
  unfold up_to_summary. rewrite <- !app_assoc.
  reflexivity.
Qed.

Lemma main_content_run (model : obj Model) (data : obj Pandas.DataFrame)
  (age experience : Z) (s : run_state) (y : float) (rest : list float)
  (ages experiences salaries : Pandas.Series) :
  predict (oval model) [[age; experience]] = inr (y :: rest) ->
  has_columns (oval data) ages experiences salaries ->
  main_content_area model data age experience s
  = (Ok tt, {| proc := proc s;
               page := page s ++ main_panel (here s) ages experiences salaries
                                   age experience y;
               here := here s;
               predict_calls := predict_calls s ++ [[[age; experience]]] |}).
Proof.
  intros Hp (Ha & He & Hs & Hn).
  open_script. unfold Plotly.px_scatter. rewrite Hp, Ha, He, Hs. step.
  numeric Hn.
  unfold main_panel. rewrite <- !app_assoc. reflexivity.
Qed.

Lemma diff_percent_run (data : Pandas.DataFrame) (salaries : Pandas.Series)
  (p : float) (s : run_state) :
  Pandas.getitem data "Current Salary" = Some salaries ->
  Pandas.has_text salaries = false ->
  diff_percent data p s = (Ok (deviation p (Pandas.mean salaries)), s).
Proof.
  intros Hs Hn. open_script. rewrite Hs. numeric Hn.
  reflexivity.
Qed.

Lemma statistics_run (data : Pandas.DataFrame) (salaries : Pandas.Series)
  (p : float) (s : run_state) :
  Pandas.getitem data "Current Salary" = Some salaries ->
  Pandas.has_text salaries = false ->
  statistics_section data p s
  = (Ok tt,
     {| proc := proc s;
        page := page s ++
          [ (here s, Subheader "📋 Quick Statistics");
            (here s, Columns [1; 1; 1; 1]);
            (Column 1 (here s),
             Metric "Dataset Mean Salary" (currency (Pandas.mean salaries)));
            (Column 2 (here s),
             Metric "Dataset Max Salary" (currency (Pandas.max salaries)));
            (Column 3 (here s), Metric "Predicted Salary" (currency p));
            (Column 4 (here s),
             Metric "Vs Mean" (percent (deviation p (Pandas.mean salaries)))) ];
        here := here s;
        predict_calls := predict_calls s |}).
Proof.
  intros Hs Hn. open_script. rewrite Hs. step. numeric Hn.
  rewrite <- !app_assoc. reflexivity.
Qed.

Lemma statistics_vs_mean (data : Pandas.DataFrame) (salaries : Pandas.Series)
  (p : float) (s : run_state) :
  Pandas.getitem data "Current Salary" = Some salaries ->
  Pandas.has_text salaries = false ->
  metric_values "Vs Mean" (page (snd (statistics_section data p s)))
  = (metric_values "Vs Mean" (page s)
     ++ [percent (deviation p (Pandas.mean salaries))])%list.
Proof.
  intros Hs Hn. rewrite (statistics_run data salaries p s Hs Hn).
  cbn [snd page]. unfold metric_values. rewrite flat_map_app.
  reflexivity.
Qed.

(* ================================================================== *)
(** * Small facts used below                                           *)
(* ================================================================== *)

Lemma prefix_app (a b : string) : String.prefix a (a ++ b) = true.
Proof.
  induction a as [|c a IH]; simpl.
  - now destruct b.
  - destruct (Ascii.ascii_dec c c); [exact IH | congruence].
Qed.

(* ================================================================== *)
(** * The claims                                                       *)
(* ================================================================== *)

(** C1, as stated, fails: the script does not check what the model
    returns.  For the pair (30, 5), inside the domains of the two
    controls, a model that answers NaN for its one row gives a prediction
    of NaN, which is not a finite number. *)
Lemma prediction_can_be_nan :
  in_domain 30 5
  /\ predict nan_model [[30; 5]] = inr [nan]
  /\ prediction {| oid := 0; oval := nan_model |} 30 5 (start fresh_process)
     = (Ok nan, {| proc := fresh_process; page := []; here := Main;
                   predict_calls := [[[30; 5]]] |})
  /\ is_finite nan = false.
Proof.
  unfold in_domain. repeat split; lia.
Qed.

(** C1, as the script has it.  The prediction is
    [model.predict([[age, experience]])[0]]: one call of the loaded model
    on the single row [age, experience], age first, and the first element
    of what it returns, unchanged.  The script checks neither the number
    of the outputs nor that the first is finite: an exception of the
    model leaves the script, an output without elements raises
    [IndexError], and otherwise the prediction is the first output
    whatever it is.  So the prediction is a number [y] exactly when the
    output of the model starts with [y], and it is finite exactly when
    that first output is. *)
Theorem prediction_is_first_output
  (model : obj Model) (age experience : Z) (s : run_state) :
  prediction model age experience s
  = (match predict (oval model) [[age; experience]] with
     | inl e => Raise e
     | inr [] => Raise (library_error (proc s) EmptyOutput)
     | inr (y :: _) => Ok y
     end,
     {| proc := proc s; page := page s; here := here s;
        predict_calls := predict_calls s ++ [[[age; experience]]] |})
  /\ (forall y : float,
        fst (prediction model age experience s) = Ok y
        <-> exists rest,
              predict (oval model) [[age; experience]] = inr (y :: rest)).
Proof.
  assert (E : prediction model age experience s
              = (match predict (oval model) [[age; experience]] with
                 | inl e => Raise e
                 | inr [] => Raise (library_error (proc s) EmptyOutput)
                 | inr (y :: _) => Ok y
                 end,
                 {| proc := proc s; page := page s; here := here s;
                    predict_calls :=
                      predict_calls s ++ [[[age; experience]]] |})).
  { open_script. unfold bind.
    destruct (predict (oval model) [[age; experience]]) as [e|[|y rest]];
      reflexivity. }
  split; [exact E|].
  intro y. rewrite E. cbn [fst].
  destruct (predict (oval model) [[age; experience]]) as [e|[|y' rest]].
  - split; [discriminate | intros (rest & H); discriminate H].
  - split; [discriminate | intros (rest & H); discriminate H].
  - split.
    + intros H. inversion H. now exists rest.
    + intros (rest' & H). inversion H. reflexivity.
Qed.

(** C2, as stated, fails: the text of the Vs Mean metric does not always
    have a decimal place.  On the frame of two unpaid records the value
    is infinite and the metric shows [+inf%]; on a frame without records
    the mean is NaN and the metric shows [+nan%]. *)
Lemma vs_mean_without_decimal :
  vs_mean_shown unpaid (of_Z 35000) = ["+inf%"]
  /\ is_percent_text "+inf%" = false
  /\ vs_mean_shown (frame [] [] []) (of_Z 35000) = ["+nan%"]
  /\ is_percent_text "+nan%" = false.
Proof.
  repeat split; vm_compute; reflexivity.
Qed.

(** C2, as the script has it.  The Vs Mean metric shows
    [(prediction - mean) / mean * 100], where [mean] is the mean of the
    Current Salary column, computed in binary64: the script computes
    that value, and the statistics section renders it under the label
    Vs Mean through the format [+.1f] followed by a percent sign.  The
    text always starts with the sign of the value.  When the value is
    finite and not zero, the text is the sign, the digits of the integer
    part, a point and exactly one decimal, and its digits spell the
    value in tenths, rounded to the nearest tenth and to the even one
    half way between two; a zero reads [+0.0%] or [-0.0%]; a value that
    is not finite reads [+inf%], [-inf%] or [+nan%].  For a mean of 50000
    and a prediction of 60000 the text is +20.0%. *)
Theorem vs_mean_metric
  (data : Pandas.DataFrame) (salaries : Pandas.Series) (p : float)
  (s : run_state) :
  Pandas.getitem data "Current Salary" = Some salaries ->
  Pandas.has_text salaries = false ->
  let d := deviation p (Pandas.mean salaries) in
  diff_percent data p s = (Ok d, s)
  /\ metric_values "Vs Mean" (page (snd (statistics_section data p s)))
     = (metric_values "Vs Mean" (page s) ++ [percent d])%list
  /\ first_char (percent d) = Some (sign_char d)
  /\ match d with
     | S754_finite _ m e =>
         is_percent_text (percent d) = true
         /\ nearest 1 m e (digits_value (percent d))
     | S754_zero negative =>
         percent d = if negative then "-0.0%" else "+0.0%"
     | S754_infinity negative =>
         percent d = if negative then "-inf%" else "+inf%"
     | S754_nan => percent d = "+nan%"
     end
  /\ percent (deviation (of_Z 60000) (of_Z 50000)) = "+20.0%".
Proof.
  intros Hs Hn d. split; [|split; [|split; [|split]]].
  - now apply diff_percent_run.
  - now apply statistics_vs_mean.
  - destruct d as [[]|[]| |[] m e]; reflexivity.
  - destruct d as [[]|[]| |negative m e]; try reflexivity.
    split.
    + unfold percent, format_f. rewrite string_app_assoc.
      apply percent_text_shape.
    + rewrite percent_reads_back. apply scaled_nearest.
  - vm_compute. reflexivity.
Qed.

Lemma vs_mean_metric_witness :
  Pandas.mean (int_series "Current Salary" [50000]) = of_Z 50000
  /\ metric_values "Vs Mean"
       (page (snd (statistics_section one_row (of_Z 60000)
                     (start fresh_process))))
     = ["+20.0%"]
  /\ first_char "+20.0%" = Some "+"%char.
Proof.
  split; [reflexivity|].
  destruct (vs_mean_metric one_row (int_series "Current Salary" [50000])
              (of_Z 60000) (start fresh_process) eq_refl eq_refl)
    as (_ & H & F & _).
  split; [exact H | exact F].
Defined.

(** C3, as stated, fails: with a mean salary of zero there is no
    designated fallback.  On the frame of two unpaid records the Vs Mean
    metric shows [+inf%] for a prediction of 35000, [-inf%] for -35000 and
    [+nan%] for 0, so no single text stands for every prediction. *)
Lemma zero_mean_no_fallback :
  Pandas.mean (int_series "Current Salary" [0; 0]) = zero
  /\ vs_mean_shown unpaid (of_Z 35000) = ["+inf%"]
  /\ vs_mean_shown unpaid (of_Z (-35000)) = ["-inf%"]
  /\ vs_mean_shown unpaid zero = ["+nan%"]
  /\ ~ (exists fallback : string,
          forall p : float, vs_mean_shown unpaid p = [fallback]).
Proof.
  repeat (split; [vm_compute; reflexivity|]).
  intros (fallback & H).
  pose proof (H (of_Z 35000)) as H1. pose proof (H zero) as H2.
  vm_compute in H1, H2. congruence.
Qed.

(** C3, as the script has it.  The script has no branch on the mean: with
    a mean salary of zero the statistics section still runs to its end and
    raises nothing, because the division is the IEEE division of
    [numpy.float64].  What the Vs Mean metric then shows depends on the
    prediction: [+nan%] for a prediction that is zero or NaN, and
    [+inf%] or [-inf%] for any other prediction.  The sign of the
    infinity is the sign of the prediction when the mean is the positive
    zero, and the opposite sign when the mean is the negative zero (the
    mean of the salaries -5e-324, 0 and 0 is one).  No not-applicable
    text is substituted. *)
Theorem zero_mean_shows_inf_or_nan
  (data : Pandas.DataFrame) (salaries : Pandas.Series) (p : float)
  (negative_zero : bool) (s : run_state) :
  Pandas.getitem data "Current Salary" = Some salaries ->
  Pandas.mean salaries = S754_zero negative_zero ->
  fst (statistics_section data p s) = Ok tt
  /\ metric_values "Vs Mean" (page (snd (statistics_section data p s)))
     = (metric_values "Vs Mean" (page s)
        ++ [match p with
            | S754_nan | S754_zero _ => "+nan%"
            | S754_infinity sp | S754_finite sp _ _ =>
                if xorb sp negative_zero then "-inf%" else "+inf%"
            end])%list.
Proof.
  intros Hs Hz.
  assert (Hn : Pandas.has_text salaries = false).
  { destruct (Pandas.has_text salaries) eqn:E; [|reflexivity].
    rewrite (mean_of_text salaries E) in Hz. discriminate Hz. }
  split.
  - now rewrite (statistics_run data salaries p s Hs Hn).
  - rewrite (statistics_vs_mean data salaries p s Hs Hn).
    f_equal. f_equal. rewrite Hz.
    destruct p as [sp|sp| |sp m e]; destruct negative_zero;
      try destruct sp; reflexivity.
Qed.

Lemma zero_mean_shows_inf_or_nan_witness :
  (fst (statistics_section unpaid (of_Z 35000) (start fresh_process)) = Ok tt
   /\ metric_values "Vs Mean"
        (page (snd (statistics_section unpaid (of_Z 35000)
                      (start fresh_process))))
      = ["+inf%"])
  /\ Pandas.mean (float_series "Current Salary" [tiny_negative; zero; zero])
     = S754_zero true
  /\ (fst (statistics_section nearly_unpaid (of_Z 35000) (start fresh_process))
      = Ok tt
      /\ metric_values "Vs Mean"
           (page (snd (statistics_section nearly_unpaid (of_Z 35000)
                         (start fresh_process))))
         = ["-inf%"]).
Proof.
  split; [|split].
  - apply (zero_mean_shows_inf_or_nan unpaid
             (int_series "Current Salary" [0; 0]) (of_Z 35000) false
             (start fresh_process)); reflexivity.
  - reflexivity.
  - apply (zero_mean_shows_inf_or_nan nearly_unpaid
             (float_series "Current Salary" [tiny_negative; zero; zero])
             (of_Z 35000) true (start fresh_process)); reflexivity.
Defined.

(** C7, as stated, fails: a currency value that is not a finite number
    has no digits.  On a dataset whose columns have no record the mean
    and the maximum of the salaries are NaN, and a run with the button
    pressed shows [$nan] for both. *)
Lemma currency_without_digits :
  metric_values "Dataset Mean Salary"
    (page_of (render (disk (frame [] [] [])) (pressed 30 5) fresh_process))
  = ["$nan"]
  /\ metric_values "Dataset Max Salary"
       (page_of (render (disk (frame [] [] [])) (pressed 30 5) fresh_process))
     = ["$nan"]
  /\ is_currency_text "$nan" = false.
Proof.
  repeat split; vm_compute; reflexivity.
Qed.

(** C7, as the script has it.  A currency value is rendered by the
    format [,.2f] after a dollar sign, on the prediction card and on the
    three currency metrics.  For every finite value that is not zero the
    text is the dollar sign, a minus sign exactly when the value is
    negative, the digits of the integer part in groups of three
    separated by commas, a point and exactly two decimals, and its
    digits spell the value in cents, rounded to the nearest cent and to
    the even one half way between two.  A zero reads [$0.00] or
    [$-0.00]; a value that is not finite reads [$inf], [$-inf] or
    [$nan].  1234567.8 reads $1,234,567.80. *)
Theorem currency_rendering (x : float) :
  first_char (currency x) = Some "$"%char
  /\ match x with
     | S754_finite negative m e =>
         is_currency_text (currency x) = true
         /\ nearest 2 m e (digits_value (currency x))
         /\ minus_second (currency x) = negative
     | S754_zero negative =>
         currency x = if negative then "$-0.00" else "$0.00"
     | S754_infinity negative =>
         currency x = if negative then "$-inf" else "$inf"
     | S754_nan => currency x = "$nan"
     end
  /\ currency (div (of_Z 12345678) (of_Z 10)) = "$1,234,567.80"
  /\ div (of_Z 12345678) (of_Z 10) = S754_finite false 5302428325694669 (-32).
Proof.
  split; [reflexivity|]. split; [|split; vm_compute; reflexivity].
  destruct x as [[]|[]| |negative m e]; try reflexivity.
  split; [|split].
  - unfold currency, format_f. apply currency_text_shape.
  - rewrite currency_reads_back. apply scaled_nearest.
  - apply currency_minus.
Qed.

(** C4, as stated, fails for the dataset.  In a new process with both
    files on disk, the first call of [load_data] returns the object read
    from the spreadsheet and the second call returns another object with
    the same content: the two identities differ. *)
Lemma load_data_twice_not_identical :
  fst (load_data (disk two_rows) (start fresh_process))
  = Ok {| oid := 0; oval := two_rows |}
  /\ fst (load_data (disk two_rows)
            (snd (load_data (disk two_rows) (start fresh_process))))
     = Ok {| oid := 1; oval := two_rows |}
  /\ reads (proc (snd (load_data (disk two_rows)
                         (snd (load_data (disk two_rows)
                                 (start fresh_process))))))
     = ["salary_dataset.xlsx"].
Proof.
  repeat split.
Qed.

(** C4, as the script has it.  [load_model] is under [st.cache_resource]:
    once a call has returned, the next call returns the very same object
    and leaves the process as it is, so nothing is read.  [load_data] is
    under [st.cache_data]: once a call has returned, the next call returns
    a dataset with the same content but a new identity (a copy unpickled
    from the cache entry), and reads no file either. *)
Theorem loaders_second_call (fs : files) (s : run_state) :
  (forall (m1 : obj Model) (s1 : run_state),
     load_model fs s = (Ok m1, s1) ->
     load_model fs s1 = (Ok m1, s1))
  /\ (forall (d1 : obj Pandas.DataFrame) (s1 : run_state),
        load_data fs s = (Ok d1, s1) ->
        exists (d2 : obj Pandas.DataFrame) (s2 : run_state),
          load_data fs s1 = (Ok d2, s2)
          /\ oval d2 = oval d1
          /\ oid d2 <> oid d1
          /\ reads (proc s2) = reads (proc s1)).
Proof.
  split.
  - intros m1 s1 H. unfold load_model, cache_resource in *.
    destruct (resource_cache (proc s)) as [o|] eqn:Ec.
    + inversion H; subst. now rewrite Ec.
    + destruct (joblib_load fs model_path s) as [[o|e|] s'] eqn:Ej;
        inversion H; subst. reflexivity.
  - intros d1 s1 H. unfold load_data, cache_data in *.
    destruct (data_cache (proc s)) as [v|] eqn:Ec.
    + cbn [new_obj] in H. inversion H; subst. cbn [with_proc proc data_cache].
      rewrite Ec. eexists _, _. split; [reflexivity|].
      cbn [new_obj oval oid with_proc proc next_id reads].
      repeat split. lia.
    + destruct (read_excel fs data_path s) as [[o|e|] s'] eqn:Er;
        inversion H; subst.
      cbn [with_proc proc data_cache].
      eexists _, _. split; [reflexivity|].
      cbn [new_obj oval oid with_proc proc next_id reads].
      repeat split.
      unfold read_excel, bind, log_read in Er.
      destruct (excel_file fs data_path) as [e|d]; [discriminate|].
      cbn [new_obj] in Er. inversion Er; subst.
      cbn [with_proc proc next_id oid]. lia.
Qed.

Lemma loaders_second_call_witness :
  load_model (disk two_rows)
    (snd (load_model (disk two_rows) (start fresh_process)))
  = load_model (disk two_rows) (start fresh_process).
Proof.
  destruct (loaders_second_call (disk two_rows) (start fresh_process))
    as [Hm _].
  exact (Hm _ _ eq_refl).
Defined.

(** C6.  When a resource cannot be loaded (the model file fails to
    deserialise, or the model is there and the spreadsheet fails), the run
    shows the error message built from the exception, right after the page
    configuration and the style sheet, and stops there: nothing else is
    rendered and no prediction is made.  Each file was opened at most once
    and no other file was tried. *)
Theorem load_failure_is_fatal
  (fs : files) (ui : session) (p : process) (e : exn) :
  (resource_cache p = None /\ joblib_file fs model_path = inl e)
  \/ ((resource_cache p <> None \/ exists m, joblib_file fs model_path = inr m)
      /\ data_cache p = None /\ excel_file fs data_path = inl e) ->
  fst (render fs ui p) = Stopped
  /\ page_of (render fs ui p)
     = (preamble ++ [(Main, Error ("❌ Error loading resources: " ++ exn_str e))])%list
  /\ predict_calls (snd (render fs ui p)) = []
  /\ exists attempted : list string,
       reads (process_of (render fs ui p)) = (reads p ++ attempted)%list
       /\ NoDup attempted
       /\ incl attempted [model_path; data_path].
Proof.
  intros [[Hc Hm] | [Hm [Hc Hd]]].
  - open_caches. rewrite Hm. step. rewrite Hc. step.
    repeat split. exists [model_path]. repeat split.
    + constructor; [intros []|constructor].
    + intros x [<-|[]]. now left.
  - destruct (resource_cache p) as [o|] eqn:Ec.
    + open_caches. rewrite Hd. step. rewrite Ec. step. rewrite Hc. step.
      repeat split. exists [data_path]. repeat split.
      * constructor; [intros []|constructor].
      * intros x [<-|[]]. right. now left.
    + destruct Hm as [Hm | [m Hm]]; [congruence|].
      open_caches. rewrite Hm, Hd. step. rewrite Ec. step. rewrite Hc. step.
      repeat split. exists [model_path; data_path]. repeat split.
      * rewrite <- app_assoc. reflexivity.
      * constructor; [intros [H|[]]; discriminate H|].
        constructor; [intros []|constructor].
      * apply incl_refl.
Qed.

Lemma load_failure_is_fatal_witness :
  fst (render empty_disk untouched fresh_process) = Stopped
  /\ page_of (render empty_disk untouched fresh_process)
     = (preamble
        ++ [(Main, Error ("❌ Error loading resources: "
                          ++ exn_str (not_found model_path)))])%list
  /\ predict_calls (snd (render empty_disk untouched fresh_process)) = []
  /\ exists attempted : list string,
       reads (process_of (render empty_disk untouched fresh_process))
       = (reads fresh_process ++ attempted)%list
       /\ NoDup attempted
       /\ incl attempted [model_path; data_path].
Proof.
  apply (load_failure_is_fatal empty_disk untouched fresh_process
           (not_found model_path)).
  left. split; reflexivity.
Defined.

(** C9.  The age control is a slider over the integers 18 to 65 that
    starts at 30, the experience control a slider over 0 to 50 that starts
    at 5.  Whatever the state of the widgets, the sidebar returns an age
    and an experience inside these bounds: the position the user chose
    when it is inside the range, and the default while a slider was never
    moved. *)
Theorem inputs_within_bounds
  (ui : session) (data : obj Pandas.DataFrame) (s : run_state) :
  exists (age experience : Z) (predict_btn : bool) (s' : run_state),
    sidebar_for_inputs ui data s = (Ok (age, experience, predict_btn), s')
    /\ in_domain age experience
    /\ In (Container (Sidebar (here s)),
           Slider "**Age**" 18 65 30 "Select the employee's age") (page s')
    /\ In (Container (Sidebar (here s)),
           Slider "**Years of Experience**" 0 50 5
             "Select years of professional experience") (page s')
    /\ (slider_state ui "**Age**" = None -> age = 30)
    /\ (slider_state ui "**Years of Experience**" = None -> experience = 5)
    /\ (forall v, slider_state ui "**Age**" = Some v ->
                  18 <= v <= 65 -> age = v)
    /\ (forall v, slider_state ui "**Years of Experience**" = Some v ->
                  0 <= v <= 50 -> experience = v).
Proof.
  eexists _, _, _, _. split.
  - open_script. step. reflexivity.
  - step. unfold in_domain, slider_value.
    split; [|split; [|split; [|split; [|split; [|split]]]]].
    + destruct (slider_state ui "**Age**");
        destruct (slider_state ui "**Years of Experience**"); lia.
    + find_in.
    + find_in.
    + intros H. now rewrite H.
    + intros H. now rewrite H.
    + intros v H ?. rewrite H. lia.
    + intros v H ?. rewrite H. lia.
Qed.

(** C5, as stated, fails: not every render cycle renders what the claim
    lists.  Without the button, on a spreadsheet without columns, the
    dataset overview ends with the [ValueError] of [data.describe()]
    after the record preview: the statistical summary, the record count
    and the other metrics of the overview are not rendered.  With the
    button, a model that raises ends the run before the prediction card:
    no card, no chart, no summary metric and no overview are rendered. *)
Lemma render_cycle_cut_short :
  fst (render (disk []) untouched fresh_process)
  = Raise (library_error fresh_process NoColumns)
  /\ exn_class (library_error fresh_process NoColumns) = "ValueError"
  /\ count is_table (page_of (render (disk []) untouched fresh_process))
     = 1%nat
  /\ metric_values "Total Records"
       (page_of (render (disk []) untouched fresh_process)) = []
  /\ fst (render empty_disk (pressed 30 5) broken_process) = Raise shape_error
  /\ cards_shown (page_of (render empty_disk (pressed 30 5) broken_process))
     = []
  /\ count is_chart (page_of (render empty_disk (pressed 30 5) broken_process))
     = 0%nat
  /\ summary_metrics_shown
       (page_of (render empty_disk (pressed 30 5) broken_process)) = []
  /\ count is_table (page_of (render empty_disk (pressed 30 5) broken_process))
     = 0%nat.
Proof.
  repeat split; vm_compute; reflexivity.
Qed.

(** C5, as the script has it.  What the main content and the dataset
    preview render on a dataset that has at least one column, by the
    state of the button.  Not pressed: the run adds the dataset overview
    (the rule, the first ten records, the statistical summary, and the
    shape, types and missing-value count) and nothing else; no prediction
    is made and the page gains no prediction card, no chart and no
    summary metric.  Pressed, with a model that answers and a frame that
    has the three columns with salaries that are numbers: the run adds
    the prediction card, the two scatter charts and the four summary
    metrics, and then the same dataset overview. *)
Theorem renderer_outputs
  (model : obj Model) (data : obj Pandas.DataFrame) (age experience : Z)
  (predict_btn : bool) (s : run_state) (y : float) (rest : list float)
  (ages experiences salaries : Pandas.Series) :
  0 < Pandas.n_columns (oval data) ->
  (predict_btn = true ->
   predict (oval model) [[age; experience]] = inr (y :: rest)
   /\ has_columns (oval data) ages experiences salaries) ->
  let main :=
    if predict_btn
    then main_panel (here s) ages experiences salaries age experience y
    else [] in
  let overview := overview_panel (here s) (oval data) in
  renderer model data age experience predict_btn s
  = (Ok tt,
     {| proc := proc s;
        page := page s ++ main ++ overview;
        here := here s;
        predict_calls :=
          predict_calls s
          ++ (if predict_btn then [[[age; experience]]] else []) |})
  /\ List.length (cards_shown (main ++ overview))
     = (if predict_btn then 1 else 0)%nat
  /\ count is_chart (main ++ overview) = (if predict_btn then 2 else 0)%nat
  /\ summary_metrics_shown (main ++ overview)
     = (if predict_btn then summary_labels else [])
  /\ cards_shown overview = []
  /\ count is_chart overview = 0%nat
  /\ summary_metrics_shown overview = [].
Proof.
  intros Hd H main overview. subst main overview.
  destruct predict_btn.
  - destruct (H eq_refl) as [Hp Hc].
    split.
    + unfold renderer, bind.
      rewrite (main_content_run model data age experience s y rest
                 ages experiences salaries Hp Hc).
      rewrite dataset_preview_run by exact Hd.
      step. rewrite <- app_assoc. reflexivity.
    + unfold cards_shown, main_panel, overview_panel, prediction_card_html.
      cbn [app flat_map snd].
      rewrite prefix_app. repeat split.
  - split.
    + unfold renderer, bind. step. rewrite dataset_preview_run by exact Hd.
      rewrite app_nil_r. reflexivity.
    + repeat split.
Qed.

Lemma renderer_outputs_witness :
  (fst (renderer {| oid := 0; oval := stub_model |}
          {| oid := 1; oval := two_rows |} 30 5 true (start fresh_process))
   = Ok tt
   /\ summary_metrics_shown
        (page (snd (renderer {| oid := 0; oval := stub_model |}
                      {| oid := 1; oval := two_rows |} 30 5 true
                      (start fresh_process))))
      = summary_labels)
  /\ (renderer {| oid := 0; oval := stub_model |}
        {| oid := 1; oval := two_rows |} 30 5 false (start fresh_process)
      = (Ok tt, {| proc := fresh_process;
                   page := overview_panel Main two_rows;
                   here := Main;
                   predict_calls := [] |})).
Proof.
  split.
  - destruct (renderer_outputs {| oid := 0; oval := stub_model |}
                {| oid := 1; oval := two_rows |} 30 5 true
                (start fresh_process) (of_Z 35000) []
                (int_series "Age" [25; 40])
                (int_series "Year of Experience" [2; 15])
                (int_series "Current Salary" [40000; 90000]))
      as (E & _ & _ & L & _).
    + reflexivity.
    + intros _. repeat split.
    + rewrite E. split; [reflexivity | exact L].
  - destruct (renderer_outputs {| oid := 0; oval := stub_model |}
                {| oid := 1; oval := two_rows |} 30 5 false
                (start fresh_process) (of_Z 35000) []
                (int_series "Age" [25; 40])
                (int_series "Year of Experience" [2; 15])
                (int_series "Current Salary" [40000; 90000]))
      as (E & _).
    + reflexivity.
    + discriminate.
    + exact E.
Defined.

(** The whole page of a run without the button, in a process that has both
    resources cached and a dataset with at least one column: the run ends
    normally, calls no model, and its page holds the dataset overview but
    no prediction card, no chart and no summary metric (the sidebar has
    metrics of its own, Training Samples and Features). *)
Lemma page_without_button
  (fs : files) (ui : session) (p : process) (m : obj Model)
  (d : Pandas.DataFrame) :
  resource_cache p = Some m ->
  data_cache p = Some d ->
  0 < Pandas.n_columns d ->
  button_pressed ui "🎯 Predict Salary" = false ->
  fst (render fs ui p) = Ok tt
  /\ predict_calls (snd (render fs ui p)) = []
  /\ cards_shown (page_of (render fs ui p)) = []
  /\ count is_chart (page_of (render fs ui p)) = 0%nat
  /\ summary_metrics_shown (page_of (render fs ui p)) = []
  /\ metric_values "Training Samples" (page_of (render fs ui p))
     = [format_int_comma (Pandas.len d)]
  /\ exists before after,
       page_of (render fs ui p)
       = (before ++ overview_panel Main d ++ after)%list.
Proof.
  intros Hm Hd Hc Hb. destruct d as [|c d]; [discriminate Hc|].
  open_caches. unfold Pandas.describe.
  step. rewrite Hm. step. rewrite Hd. step. rewrite Hb. step.
  cbn [app].
  repeat split.
  match goal with
  | |- exists before after, ?pg = _ =>
      exists (firstn 16 pg), (skipn 29 pg)
  end.
  reflexivity.
Qed.

(** C8.  End to end: the two-record dataset, the stub model
    [10000 + 2000 * experience + 500 * age], the sliders at age 30 and
    experience 5, the button pressed, in a new process.  The run ends
    normally; the mean salary is 65000; the prediction is 35000; the card
    and the Predicted Salary metric show $35,000.00; the deviation is
    [(35000 - 65000) / 65000 * 100] and the Vs Mean metric shows -46.2%. *)
Theorem end_to_end :
  fst (render (disk two_rows) (pressed 30 5) fresh_process) = Ok tt
  /\ predict_calls (snd (render (disk two_rows) (pressed 30 5) fresh_process))
     = [[[30; 5]]]
  /\ predict stub_model [[30; 5]] = inr [of_Z 35000]
  /\ Pandas.mean (int_series "Current Salary" [40000; 90000]) = of_Z 65000
  /\ cards_shown (page_of (render (disk two_rows) (pressed 30 5) fresh_process))
     = [prediction_card_html (of_Z 35000) 30 5]
  /\ currency (of_Z 35000) = "$35,000.00"
  /\ metric_values "Predicted Salary"
       (page_of (render (disk two_rows) (pressed 30 5) fresh_process))
     = ["$35,000.00"]
  /\ metric_values "Dataset Mean Salary"
       (page_of (render (disk two_rows) (pressed 30 5) fresh_process))
     = ["$65,000.00"]
  /\ metric_values "Vs Mean"
       (page_of (render (disk two_rows) (pressed 30 5) fresh_process))
     = [percent (mul (div (sub (of_Z 35000) (of_Z 65000)) (of_Z 65000))
                   (of_Z 100))]
  /\ percent (mul (div (sub (of_Z 35000) (of_Z 65000)) (of_Z 65000))
                (of_Z 100))
     = "-46.2%".
Proof.
  repeat split; vm_compute; reflexivity.
Qed.

(** C10.  In a run with the button pressed the model is called exactly
    once, and the value it returned is the one shown everywhere: in the
    text of the prediction card, as the y-coordinate of the overlay point
    of both charts (at x = experience in the first, x = age in the
    second), in the Predicted Salary metric, and as the minuend of the
    deviation that the Vs Mean metric shows. *)
Theorem one_prediction_everywhere
  (model : obj Model) (data : obj Pandas.DataFrame) (age experience : Z)
  (s : run_state) (y : float) (rest : list float)
  (ages experiences salaries : Pandas.Series) :
  predict (oval model) [[age; experience]] = inr (y :: rest) ->
  has_columns (oval data) ages experiences salaries ->
  let added :=
    main_panel (here s) ages experiences salaries age experience y in
  main_content_area model data age experience s
  = (Ok tt,
     {| proc := proc s;
        page := page s ++ added;
        here := here s;
        predict_calls := predict_calls s ++ [[[age; experience]]] |})
  /\ cards_shown added
     = [card_head ++ currency y ++ card_mid ++ str_int age
        ++ " | Experience: " ++ str_int experience ++ card_tail]
  /\ overlays_shown added
     = [([Plotly.SInt experience], [Plotly.SFloat y]);
        ([Plotly.SInt age], [Plotly.SFloat y])]
  /\ metric_values "Predicted Salary" added = [currency y]
  /\ metric_values "Vs Mean" added
     = [percent (mul (div (sub y (Pandas.mean salaries))
                        (Pandas.mean salaries))
                   (of_Z 100))].
Proof.
  intros Hp Hc added. subst added. split.
  - now apply main_content_run with (rest := rest).
  - unfold cards_shown, main_panel, prediction_card_html.
    cbn [flat_map snd app]. rewrite prefix_app. repeat split.
Qed.

Lemma one_prediction_everywhere_witness :
  main_content_area {| oid := 0; oval := stub_model |}
    {| oid := 1; oval := two_rows |} 30 5 (start fresh_process)
  = (Ok tt,
     {| proc := fresh_process;
        page := [] ++ main_panel Main (int_series "Age" [25; 40])
                        (int_series "Year of Experience" [2; 15])
                        (int_series "Current Salary" [40000; 90000])
                        30 5 (of_Z 35000);
        here := Main;
        predict_calls := [] ++ [[[30; 5]]] |})
  /\ metric_values "Predicted Salary"
       (main_panel Main (int_series "Age" [25; 40])
          (int_series "Year of Experience" [2; 15])
          (int_series "Current Salary" [40000; 90000]) 30 5 (of_Z 35000))
     = [currency (of_Z 35000)].
Proof.
  destruct (one_prediction_everywhere {| oid := 0; oval := stub_model |}
              {| oid := 1; oval := two_rows |} 30 5 (start fresh_process)
              (of_Z 35000) [] (int_series "Age" [25; 40])
              (int_series "Year of Experience" [2; 15])
              (int_series "Current Salary" [40000; 90000]))
    as (E & _ & _ & M & _).
  - reflexivity.
  - repeat split.
  - split; [exact E | exact M].
Defined.

(* ================================================================== *)
(** * Invariants of a run and how the combinators keep them            *)
(* ================================================================== *)

Section Closure.

Variable R : run_state -> run_state -> Prop.
Hypothesis R_refl : forall s, R s s.
Hypothesis R_trans : forall a b c, R a b -> R b c -> R a c.
Hypothesis R_here : forall b s, R s (with_here b s).
Hypothesis R_proc : forall g s, R s (with_proc g s).

Lemma preserves_ret {A} (a : A) : preserves R (ret a).
Proof. intro s. apply R_refl. Qed.

Lemma preserves_raise {A} (e : exn) : preserves R (@raise A e).
Proof. intro s. apply R_refl. Qed.

Lemma preserves_stop {A} : preserves R (@stop A).
Proof. intro s. apply R_refl. Qed.

Lemma preserves_bind {A B} (m : M A) (k : A -> M B) :
  preserves R m -> (forall a, preserves R (k a)) ->
  preserves R (bind m k).
Proof.
  intros Hm Hk s. unfold bind. specialize (Hm s).
  destruct (m s) as [[a|e|] s1]; cbn [snd] in *; auto.
  eapply R_trans; [exact Hm | apply Hk].
Qed.

Lemma preserves_try_except {A} (body : M A) (handler : exn -> M A) :
  preserves R body -> (forall e, preserves R (handler e)) ->
  preserves R (try_except body handler).
Proof.
  intros Hm Hk s. unfold try_except. specialize (Hm s).
  destruct (body s) as [[a|e|] s1]; cbn [snd] in *; auto.
  eapply R_trans; [exact Hm | apply Hk].
Qed.

Lemma preserves_within {A} (blk : block -> block) (body : M A) :
  preserves R body -> preserves R (within blk body).
Proof.
  intros Hm s. unfold within.
  specialize (Hm (with_here (blk (here s)) s)).
  destruct (body (with_here (blk (here s)) s)) as [r s1]. cbn [snd] in *.
  eapply R_trans; [apply R_here|].
  eapply R_trans; [exact Hm | apply R_here].
Qed.

Lemma preserves_fail {A} (f : failure) : preserves R (@fail A f).
Proof. intro s. apply R_refl. Qed.

Lemma preserves_item0 (a : list float) : preserves R (item0 a).
Proof. destruct a; [apply preserves_fail | apply preserves_ret]. Qed.

Lemma preserves_column (df : Pandas.DataFrame) (key : string) :
  preserves R (column df key).
Proof.
  unfold column. destruct (Pandas.getitem df key);
    [apply preserves_ret | apply preserves_fail].
Qed.

Lemma preserves_mean_of (c : Pandas.Series) : preserves R (mean_of c).
Proof.
  unfold mean_of. destruct (Pandas.has_text c);
    [apply preserves_fail | apply preserves_ret].
Qed.

Lemma preserves_max_of (c : Pandas.Series) : preserves R (max_of c).
Proof.
  unfold max_of. destruct (Pandas.has_text c); [|apply preserves_ret].
  destruct (forallb Pandas.is_text (Pandas.values c)); apply preserves_fail.
Qed.

Lemma preserves_describe (df : Pandas.DataFrame) : preserves R (describe df).
Proof.
  unfold describe. destruct (Pandas.describe df);
    [apply preserves_ret | apply preserves_fail].
Qed.

Lemma preserves_scatter (df : Pandas.DataFrame) (x y h t c : string) :
  preserves R (scatter df x y h t c).
Proof.
  unfold scatter. destruct (Plotly.px_scatter df x y h t c);
    [apply preserves_ret | apply preserves_fail].
Qed.

Lemma preserves_slider (ui : session) (label : string) (lo hi dflt : Z)
  (help : string) :
  preserves R (emit (Slider label lo hi dflt help)) ->
  preserves R (slider ui label lo hi dflt help).
Proof.
  intro H. apply preserves_bind; [exact H | intro; apply preserves_ret].
Qed.

Lemma preserves_button (ui : session) (label : string) (wide : bool) :
  preserves R (emit (Button label wide)) ->
  preserves R (button ui label wide).
Proof.
  intro H. apply preserves_bind; [exact H | intro; apply preserves_ret].
Qed.

Lemma preserves_new_obj {A} (v : A) : preserves R (new_obj v).
Proof. intro s. apply R_proc. Qed.

Lemma preserves_log_read (path : string) : preserves R (log_read path).
Proof. intro s. apply R_proc. Qed.

Lemma preserves_joblib_load (fs : files) (path : string) :
  preserves R (joblib_load fs path).
Proof.
  apply preserves_bind; [apply preserves_log_read | intros _].
  destruct (joblib_file fs path);
    [apply preserves_raise | apply preserves_new_obj].
Qed.

Lemma preserves_read_excel (fs : files) (path : string) :
  preserves R (read_excel fs path).
Proof.
  apply preserves_bind; [apply preserves_log_read | intros _].
  destruct (excel_file fs path);
    [apply preserves_raise | apply preserves_new_obj].
Qed.

Lemma preserves_cache_resource (f : M (obj Model)) :
  preserves R f -> preserves R (cache_resource f).
Proof.
  intros Hf s. unfold cache_resource.
  destruct (resource_cache (proc s)); [apply R_refl|].
  specialize (Hf s). destruct (f s) as [[o|e|] s1]; cbn [snd] in *; auto.
  eapply R_trans; [exact Hf | apply R_proc].
Qed.

Lemma preserves_cache_data (f : M (obj Pandas.DataFrame)) :
  preserves R f -> preserves R (cache_data f).
Proof.
  intros Hf s. unfold cache_data.
  destruct (data_cache (proc s)); [apply preserves_new_obj|].
  specialize (Hf s). destruct (f s) as [[o|e|] s1]; cbn [snd] in *; auto.
  eapply R_trans; [exact Hf | apply R_proc].
Qed.

End Closure.

(** ** The four relations *)

Create HintDb inv.

Lemma same_process_refl (s : run_state) : same_process s s.
Proof. reflexivity. Qed.

Lemma same_process_trans (a b c : run_state) :
  same_process a b -> same_process b c -> same_process a c.
Proof. unfold same_process. congruence. Qed.

Lemma same_process_here (b : block) (s : run_state) :
  same_process s (with_here b s).
Proof. reflexivity. Qed.

Lemma same_process_emit (e : element) : preserves same_process (emit e).
Proof. intro s. reflexivity. Qed.

Lemma same_process_predict (model : obj Model) (X : list (list Z)) :
  preserves same_process (call_predict model X).
Proof.
  intro s. unfold call_predict.
  destruct (predict (oval model) X); reflexivity.
Qed.

Lemma same_calls_refl (s : run_state) : same_calls s s.
Proof. reflexivity. Qed.

Lemma same_calls_trans (a b c : run_state) :
  same_calls a b -> same_calls b c -> same_calls a c.
Proof. unfold same_calls. congruence. Qed.

Lemma same_calls_here (b : block) (s : run_state) :
  same_calls s (with_here b s).
Proof. reflexivity. Qed.

Lemma same_calls_proc (g : process -> process) (s : run_state) :
  same_calls s (with_proc g s).
Proof. reflexivity. Qed.

Lemma same_calls_emit (e : element) : preserves same_calls (emit e).
Proof. intro s. reflexivity. Qed.

Lemma same_footers_refl (s : run_state) : same_footers s s.
Proof. reflexivity. Qed.

Lemma same_footers_trans (a b c : run_state) :
  same_footers a b -> same_footers b c -> same_footers a c.
Proof. unfold same_footers. congruence. Qed.

Lemma same_footers_here (b : block) (s : run_state) :
  same_footers s (with_here b s).
Proof. reflexivity. Qed.

Lemma same_footers_proc (g : process -> process) (s : run_state) :
  same_footers s (with_proc g s).
Proof. reflexivity. Qed.

Lemma same_footers_emit (e : element) :
  is_footer e = false -> preserves same_footers (emit e).
Proof.
  intros H s. unfold same_footers, footers. cbn [emit snd page].
  rewrite filter_app. cbn [filter snd]. rewrite H. apply app_nil_r.
Qed.

Lemma same_footers_predict (model : obj Model) (X : list (list Z)) :
  preserves same_footers (call_predict model X).
Proof.
  intro s. unfold call_predict.
  destruct (predict (oval model) X); reflexivity.
Qed.

Lemma page_grows_refl (s : run_state) : page_grows s s.
Proof. exists []. now rewrite app_nil_r. Qed.

Lemma page_grows_trans (a b c : run_state) :
  page_grows a b -> page_grows b c -> page_grows a c.
Proof.
  intros [x Hx] [y Hy]. exists (x ++ y)%list.
  now rewrite Hy, Hx, app_assoc.
Qed.

Lemma page_grows_here (b : block) (s : run_state) :
  page_grows s (with_here b s).
Proof. exists []. cbn [with_here page]. now rewrite app_nil_r. Qed.

Lemma page_grows_proc (g : process -> process) (s : run_state) :
  page_grows s (with_proc g s).
Proof. exists []. cbn [with_proc page]. now rewrite app_nil_r. Qed.

Lemma page_grows_emit (e : element) : preserves page_grows (emit e).
Proof. intro s. now exists [(here s, e)]. Qed.

Lemma page_grows_predict (model : obj Model) (X : list (list Z)) :
  preserves page_grows (call_predict model X).
Proof.
  intro s. unfold call_predict.
  destruct (predict (oval model) X); exists []; cbn [snd page];
    now rewrite app_nil_r.
Qed.

#[local] Hint Resolve same_process_refl same_process_trans same_process_here
  same_process_emit same_process_predict
  same_calls_refl same_calls_trans same_calls_here same_calls_proc
  same_calls_emit
  same_footers_refl same_footers_trans same_footers_here same_footers_proc
  same_footers_emit same_footers_predict
  page_grows_refl page_grows_trans page_grows_here page_grows_proc
  page_grows_emit page_grows_predict : inv.

Create HintDb sections.

#[local] Hint Unfold script after_loading renderer main_content_area
  dataset_preview_section dataset_overview statistics_section
  enhanced_visualizations prediction_card prediction diff_percent fig1 fig2
  sidebar_for_inputs header_section load_resources load_model load_data
  page_configuration custom_css_styling footer : sections.

(** [preserve] proves that a section of the script keeps a relation, by
    walking through its binds and blocks. *)
Ltac preserve_step :=
  cbv beta;
  match goal with
  | |- forall _, preserves _ _ => intro
  | |- preserves _ (ret _) => apply preserves_ret
  | |- preserves _ (raise _) => apply preserves_raise
  | |- preserves _ (fail _) => apply preserves_fail
  | |- preserves _ stop => apply preserves_stop
  | |- preserves _ (bind _ _) => apply preserves_bind
  | |- preserves _ (within _ _) => apply preserves_within
  | |- preserves _ (try_except _ _) => apply preserves_try_except
  | |- preserves _ (item0 _) => apply preserves_item0
  | |- preserves _ (column _ _) => apply preserves_column
  | |- preserves _ (mean_of _) => apply preserves_mean_of
  | |- preserves _ (max_of _) => apply preserves_max_of
  | |- preserves _ (describe _) => apply preserves_describe
  | |- preserves _ (scatter _ _ _ _ _ _) => apply preserves_scatter
  | |- preserves _ (slider _ _ _ _ _ _) => apply preserves_slider
  | |- preserves _ (button _ _ _) => apply preserves_button
  | |- preserves _ (cache_resource _) => apply preserves_cache_resource
  | |- preserves _ (cache_data _) => apply preserves_cache_data
  | |- preserves _ (joblib_load _ _) => apply preserves_joblib_load
  | |- preserves _ (read_excel _ _) => apply preserves_read_excel
  | |- preserves _ (match ?x with _ => _ end) => destruct x
  | |- preserves _ (if ?b then _ else _) => destruct b
  | |- _ =>
      first [ exact same_process_trans | exact same_calls_trans
            | exact same_footers_trans | exact page_grows_trans
            | solve [auto with inv] ]
  end.

Ltac preserve := autounfold with sections; repeat preserve_step.

Lemma after_loading_same_process (ui : session)
  (md : obj Model * obj Pandas.DataFrame) :
  preserves same_process (after_loading ui md).
Proof. preserve. Qed.

Lemma load_resources_same_calls (fs : files) :
  preserves same_calls (load_resources fs).
Proof. preserve. Qed.

Lemma sidebar_same_calls (ui : session) (data : obj Pandas.DataFrame) :
  preserves same_calls (sidebar_for_inputs ui data).
Proof. preserve. Qed.

Lemma header_same_calls : preserves same_calls header_section.
Proof. preserve. Qed.

Lemma preview_same_calls (data : Pandas.DataFrame) :
  preserves same_calls (dataset_preview_section data).
Proof. preserve. Qed.

Lemma script_page_grows (fs : files) (ui : session) :
  preserves page_grows (script fs ui).
Proof. preserve. Qed.

Lemma load_resources_same_footers (fs : files) :
  preserves same_footers (load_resources fs).
Proof. preserve. Qed.

Lemma header_same_footers : preserves same_footers header_section.
Proof. preserve. Qed.

Lemma sidebar_same_footers (ui : session) (data : obj Pandas.DataFrame) :
  preserves same_footers (sidebar_for_inputs ui data).
Proof. preserve. Qed.

Lemma renderer_same_footers (model : obj Model) (data : obj Pandas.DataFrame)
  (age experience : Z) (predict_btn : bool) :
  preserves same_footers (renderer model data age experience predict_btn).
Proof. preserve. Qed.

(** ** Sections that never stop the run *)

Lemma never_stops_ret {A} (a : A) : never_stops (ret a).
Proof. intro s. discriminate. Qed.

Lemma never_stops_raise {A} (e : exn) : never_stops (@raise A e).
Proof. intro s. discriminate. Qed.

Lemma never_stops_emit (e : element) : never_stops (emit e).
Proof. intro s. discriminate. Qed.

Lemma never_stops_bind {A B} (m : M A) (k : A -> M B) :
  never_stops m -> (forall a, never_stops (k a)) -> never_stops (bind m k).
Proof.
  intros Hm Hk s. unfold bind. specialize (Hm s).
  destruct (m s) as [[a|e|] s1]; cbn [fst] in *;
    [apply Hk | discriminate | congruence].
Qed.

Lemma never_stops_within {A} (blk : block -> block) (body : M A) :
  never_stops body -> never_stops (within blk body).
Proof.
  intros Hm s. unfold within.
  specialize (Hm (with_here (blk (here s)) s)).
  now destruct (body (with_here (blk (here s)) s)).
Qed.

Lemma never_stops_predict (model : obj Model) (X : list (list Z)) :
  never_stops (call_predict model X).
Proof.
  intro s. unfold call_predict.
  destruct (predict (oval model) X); discriminate.
Qed.

Lemma never_stops_fail {A} (f : failure) : never_stops (@fail A f).
Proof. intro s. discriminate. Qed.

Lemma never_stops_item0 (a : list float) : never_stops (item0 a).
Proof. destruct a as [|y a]; intro s0; discriminate. Qed.

Lemma never_stops_mean_of (c : Pandas.Series) : never_stops (mean_of c).
Proof.
  unfold mean_of. destruct (Pandas.has_text c); intro s0; discriminate.
Qed.

Lemma never_stops_max_of (c : Pandas.Series) : never_stops (max_of c).
Proof.
  unfold max_of. destruct (Pandas.has_text c);
    [destruct (forallb Pandas.is_text (Pandas.values c))|];
    intro s0; discriminate.
Qed.

Lemma never_stops_describe (df : Pandas.DataFrame) :
  never_stops (describe df).
Proof.
  unfold describe. destruct (Pandas.describe df); intro s0; discriminate.
Qed.

Lemma never_stops_column (df : Pandas.DataFrame) (key : string) :
  never_stops (column df key).
Proof.
  unfold column. destruct (Pandas.getitem df key); intro s0; discriminate.
Qed.

Lemma never_stops_scatter (df : Pandas.DataFrame) (x y h t c : string) :
  never_stops (scatter df x y h t c).
Proof.
  unfold scatter. destruct (Plotly.px_scatter df x y h t c);
    intro s0; discriminate.
Qed.

Lemma never_stops_slider (ui : session) (label : string) (lo hi dflt : Z)
  (help : string) : never_stops (slider ui label lo hi dflt help).
Proof. intro s. discriminate. Qed.

Lemma never_stops_button (ui : session) (label : string) (wide : bool) :
  never_stops (button ui label wide).
Proof. intro s. discriminate. Qed.

Ltac never_stop_step :=
  cbv beta;
  match goal with
  | |- forall _, never_stops _ => intro
  | |- never_stops (ret _) => apply never_stops_ret
  | |- never_stops (raise _) => apply never_stops_raise
  | |- never_stops (fail _) => apply never_stops_fail
  | |- never_stops (emit _) => apply never_stops_emit
  | |- never_stops (bind _ _) => apply never_stops_bind
  | |- never_stops (within _ _) => apply never_stops_within
  | |- never_stops (call_predict _ _) => apply never_stops_predict
  | |- never_stops (item0 _) => apply never_stops_item0
  | |- never_stops (column _ _) => apply never_stops_column
  | |- never_stops (mean_of _) => apply never_stops_mean_of
  | |- never_stops (max_of _) => apply never_stops_max_of
  | |- never_stops (describe _) => apply never_stops_describe
  | |- never_stops (scatter _ _ _ _ _ _) => apply never_stops_scatter
  | |- never_stops (slider _ _ _ _ _ _) => apply never_stops_slider
  | |- never_stops (button _ _ _) => apply never_stops_button
  | |- never_stops (match ?x with _ => _ end) => destruct x
  | |- never_stops (if ?b then _ else _) => destruct b
  end.

Lemma after_loading_never_stops (ui : session)
  (md : obj Model * obj Pandas.DataFrame) :
  never_stops (after_loading ui md).
Proof. autounfold with sections. repeat never_stop_step. Qed.

(** ** The outcomes of loading *)

(** Loading in a process whose caches are both filled: no file is read,
    the cached model is returned as it is, the dataset as a new copy. *)
Lemma load_resources_warm (fs : files) (s : run_state) (m : obj Model)
  (d : Pandas.DataFrame) :
  resource_cache (proc s) = Some m ->
  data_cache (proc s) = Some d ->
  load_resources fs s
  = (Ok (m, {| oid := next_id (proc s); oval := d |}),
     with_proc (fun p => {| resource_cache := resource_cache p;
                            data_cache := data_cache p;
                            next_id := S (next_id p);
                            reads := reads p;
                            texts := texts p |}) s).
Proof.
  intros Hm Hd. open_caches. rewrite Hm. step. rewrite Hd. reflexivity.
Qed.

(** A call of [load_model] returns the model and leaves it cached, or
    raises and leaves the entry empty; it renders nothing. *)
Lemma load_model_outcome (fs : files) (s : run_state) :
  (exists m s', load_model fs s = (Ok m, s')
                /\ resource_cache (proc s') = Some m
                /\ data_cache (proc s') = data_cache (proc s)
                /\ page s' = page s /\ here s' = here s
                /\ texts (proc s') = texts (proc s))
  \/ (exists e s', load_model fs s = (Raise e, s')
                   /\ resource_cache (proc s') = None
                   /\ page s' = page s /\ here s' = here s).
Proof.
  unfold load_model, cache_resource, joblib_load, bind.
  destruct (resource_cache (proc s)) as [m|] eqn:Em.
  - left. exists m, s. repeat split; auto.
  - cbn [log_read]. destruct (joblib_file fs model_path) as [e|m].
    + right. eexists _, _. split; [reflexivity|]. step. auto.
    + left. eexists _, _. split; [reflexivity|]. step. repeat split; auto.
Qed.

Lemma load_data_outcome (fs : files) (s : run_state) :
  (exists d s', load_data fs s = (Ok d, s')
                /\ data_cache (proc s') = Some (oval d)
                /\ resource_cache (proc s') = resource_cache (proc s)
                /\ page s' = page s /\ here s' = here s
                /\ texts (proc s') = texts (proc s))
  \/ (exists e s', load_data fs s = (Raise e, s')
                   /\ data_cache (proc s') = None
                   /\ resource_cache (proc s') = resource_cache (proc s)
                   /\ page s' = page s /\ here s' = here s).
Proof.
  unfold load_data, cache_data, read_excel, bind.
  destruct (data_cache (proc s)) as [d|] eqn:Ed.
  - left. eexists _, _. split; [reflexivity|]. step. repeat split; auto.
  - cbn [log_read]. destruct (excel_file fs data_path) as [e|d].
    + right. eexists _, _. split; [reflexivity|]. step. auto.
    + left. eexists _, _. split; [reflexivity|]. step. repeat split; auto.
Qed.

(** Loading never lets an exception escape, and a load that returns
    leaves both caches filled. *)
Lemma load_resources_ok_or_stopped (fs : files) (s : run_state) :
  (exists md s', load_resources fs s = (Ok md, s') /\ warm (proc s'))
  \/ (exists s', load_resources fs s = (Stopped, s')).
Proof.
  unfold load_resources, try_except, bind.
  destruct (load_model_outcome fs s)
    as [(m & s1 & -> & Hm & _) | (e & s1 & -> & _)].
  - destruct (load_data_outcome fs s1)
      as [(d & s2 & -> & Hd & Hr & _) | (e & s2 & -> & _)].
    + left. eexists _, _. split; [reflexivity|].
      exists m, (oval d). rewrite Hr. auto.
    + right. eexists. reflexivity.
  - right. eexists. reflexivity.
Qed.

(** ** The run as loading followed by the rest of the script *)

Lemma render_unfold (fs : files) (ui : session) (p : process) :
  render fs ui p
  = bind (load_resources fs) (after_loading ui)
      {| proc := p; page := preamble; here := Main; predict_calls := [] |}.
Proof.
  unfold render, script, page_configuration, custom_css_styling, preamble.
  unfold bind at 1. cbn [emit start proc page here predict_calls app].
  unfold bind at 1. cbn [emit proc page here predict_calls app].
  unfold after_loading. reflexivity.
Qed.

Lemma run_past_loading_is_warm (fs : files) (ui : session) (p : process) :
  fst (render fs ui p) <> Stopped -> warm (process_of (render fs ui p)).
Proof.
  rewrite render_unfold. unfold bind, process_of.
  destruct (load_resources_ok_or_stopped fs
              {| proc := p; page := preamble; here := Main;
                 predict_calls := [] |})
    as [(md & s' & -> & Hw) | (s' & ->)]; [|now intros []].
  intros _. rewrite (after_loading_same_process ui md s'). exact Hw.
Qed.

Lemma warm_run (fs : files) (ui : session) (p : process) :
  warm p ->
  fst (render fs ui p) <> Stopped
  /\ process_of (render fs ui p)
     = {| resource_cache := resource_cache p; data_cache := data_cache p;
          next_id := S (next_id p); reads := reads p; texts := texts p |}.
Proof.
  intros (m & d & Hm & Hd). rewrite render_unfold. unfold bind, process_of.
  rewrite (load_resources_warm fs
             {| proc := p; page := preamble; here := Main;
                predict_calls := [] |} m d Hm Hd).
  split.
  - apply after_loading_never_stops.
  - rewrite after_loading_same_process. reflexivity.
Qed.

(* ================================================================== *)
(** * Further properties of the script                                 *)
(* ================================================================== *)


(** X2.  [load_resources] never lets an exception through, and what it
    leaves follows from the two cache entries and the two files.  When
    the model is not cached and its file fails to load, the run is
    stopped after one error box with the text of that exception: only
    the model file was read and the model entry is still empty.  When
    the model is there (cached, or loaded now and then kept in its
    entry) and the dataset is not cached and the spreadsheet fails, the
    run is stopped after one error box with the text of that exception
    and the dataset entry is still empty.  Otherwise both loaders
    return, nothing is rendered, and both entries hold what was
    returned. *)
Theorem load_resources_outcomes (fs : files) (s : run_state) :
  (forall e,
     resource_cache (proc s) = None ->
     joblib_file fs model_path = inl e ->
     exists s',
       load_resources fs s = (Stopped, s')
       /\ page s'
          = (page s
             ++ [(here s, Error ("❌ Error loading resources: " ++ exn_str e))])%list
       /\ resource_cache (proc s') = None
       /\ data_cache (proc s') = data_cache (proc s)
       /\ reads (proc s') = (reads (proc s) ++ [model_path])%list)
  /\ (forall e,
        resource_cache (proc s) <> None
        \/ (exists m, joblib_file fs model_path = inr m) ->
        data_cache (proc s) = None ->
        excel_file fs data_path = inl e ->
        exists s',
          load_resources fs s = (Stopped, s')
          /\ page s'
             = (page s
                ++ [(here s, Error ("❌ Error loading resources: " ++ exn_str e))])%list
          /\ data_cache (proc s') = None
          /\ (exists m, resource_cache (proc s') = Some m
                        /\ (resource_cache (proc s) = None ->
                            joblib_file fs model_path = inr (oval m))
                        /\ (resource_cache (proc s) <> None ->
                            resource_cache (proc s) = Some m)))
  /\ (resource_cache (proc s) <> None
      \/ (exists m, joblib_file fs model_path = inr m) ->
      data_cache (proc s) <> None
      \/ (exists d, excel_file fs data_path = inr d) ->
      exists model data s',
        load_resources fs s = (Ok (model, data), s')
        /\ page s' = page s
        /\ resource_cache (proc s') = Some model
        /\ data_cache (proc s') = Some (oval data)
        /\ (resource_cache (proc s) = None ->
            joblib_file fs model_path = inr (oval model))
        /\ (data_cache (proc s) = None ->
            excel_file fs data_path = inr (oval data))).
Proof.
  split; [|split].
  - intros e Hc Hm. open_caches. rewrite Hc, Hm. step.
    eexists. split; [reflexivity|]. step. rewrite Hc. auto.
  - intros e Hm Hc Hd.
    destruct (resource_cache (proc s)) as [o|] eqn:Ec.
    + open_caches. rewrite Ec, Hc, Hd. step.
      eexists. split; [reflexivity|]. step. rewrite Ec, Hc.
      repeat split. exists o. repeat split; congruence.
    + destruct Hm as [Hm | [m Hm]]; [congruence|].
      open_caches. rewrite Ec, Hm. step. rewrite Hc, Hd. step.
      eexists. split; [reflexivity|]. step. rewrite Hc.
      repeat split. eexists. split; [reflexivity|].
      split; [auto | congruence].
  - intros Hm Hd.
    destruct (resource_cache (proc s)) as [o|] eqn:Ec;
      destruct (data_cache (proc s)) as [v|] eqn:Ed.
    + open_caches. rewrite Ec, Ed. step.
      eexists _, _, _. split; [reflexivity|]. step. rewrite Ec, Ed.
      repeat split; congruence.
    + destruct Hd as [Hd | [d Hd]]; [congruence|].
      open_caches. rewrite Ec, Ed, Hd. step.
      eexists _, _, _. split; [reflexivity|]. step. rewrite Ec.
      repeat split; congruence.
    + destruct Hm as [Hm | [m Hm]]; [congruence|].
      open_caches. rewrite Ec, Hm. step. rewrite Ed. step.
      eexists _, _, _. split; [reflexivity|]. step. rewrite ?Ed.
      repeat split; congruence.
    + destruct Hm as [Hm | [m Hm]]; [congruence|].
      destruct Hd as [Hd | [d Hd]]; [congruence|].
      open_caches. rewrite Ec, Hm. step. rewrite Ed, Hd. step.
      eexists _, _, _. split; [reflexivity|]. step.
      repeat split; congruence.
Qed.

(** X3.  Once a run got past loading, every later run in the process
    reads no file: whatever is on disk by then and whatever the widgets
    say, it gets past loading too, the list of files read is unchanged,
    and the two cache entries are the same. *)
Theorem later_runs_read_nothing
  (fs : files) (ui : session) (p : process) (fs' : files) (ui' : session) :
  fst (render fs ui p) <> Stopped ->
  fst (render fs' ui' (process_of (render fs ui p))) <> Stopped
  /\ reads (process_of (render fs' ui' (process_of (render fs ui p))))
     = reads (process_of (render fs ui p))
  /\ resource_cache (process_of (render fs' ui' (process_of (render fs ui p))))
     = resource_cache (process_of (render fs ui p))
  /\ data_cache (process_of (render fs' ui' (process_of (render fs ui p))))
     = data_cache (process_of (render fs ui p)).
Proof.
  intros H. apply run_past_loading_is_warm in H.
  destruct (warm_run fs' ui' _ H) as [Hs ->]. auto.
Qed.

Lemma later_runs_read_nothing_witness :
  fst (render empty_disk (pressed 40 10)
         (process_of (render (disk two_rows) untouched fresh_process)))
  <> Stopped
  /\ reads (process_of
              (render empty_disk (pressed 40 10)
                 (process_of (render (disk two_rows) untouched fresh_process))))
     = [model_path; data_path].
Proof.
  destruct (later_runs_read_nothing (disk two_rows) untouched fresh_process
              empty_disk (pressed 40 10)) as (H1 & H2 & _).
  - vm_compute. discriminate.
  - split; [exact H1 | exact H2].
Defined.

(** X4.  A spreadsheet that fails after the model was loaded does not
    undo the model: the run stops with the model cached and the dataset
    entry empty, having read each file once.  A later run that finds the
    spreadsheet readable gets past loading and has read the spreadsheet
    once more, and the model file not again. *)
Theorem spreadsheet_failure_keeps_model
  (fs : files) (ui : session) (p : process) (m : Model) (e : exn) :
  resource_cache p = None ->
  data_cache p = None ->
  joblib_file fs model_path = inr m ->
  excel_file fs data_path = inl e ->
  fst (render fs ui p) = Stopped
  /\ resource_cache (process_of (render fs ui p))
     = Some {| oid := next_id p; oval := m |}
  /\ data_cache (process_of (render fs ui p)) = None
  /\ reads (process_of (render fs ui p))
     = (reads p ++ [model_path; data_path])%list
  /\ forall (fs' : files) (ui' : session) (d : Pandas.DataFrame),
       excel_file fs' data_path = inr d ->
       fst (render fs' ui' (process_of (render fs ui p))) <> Stopped
       /\ reads (process_of (render fs' ui' (process_of (render fs ui p))))
          = (reads p ++ [model_path; data_path; data_path])%list.
Proof.
  intros Hc Hd Hm He.
  assert (E : render fs ui p
              = (Stopped,
                 {| proc := {| resource_cache :=
                                 Some {| oid := next_id p; oval := m |};
                               data_cache := None;
                               next_id := S (next_id p);
                               reads := (reads p ++ [model_path])
                                        ++ [data_path];
                               texts := texts p |};
                    page := preamble
                            ++ [(Main, Error (error_loading e))];
                    here := Main; predict_calls := [] |})).
  { open_caches. rewrite Hm, He. step. rewrite Hc. step. rewrite Hd. step.
    rewrite ?Hd. reflexivity. }
  rewrite E. unfold process_of. cbn [fst snd proc resource_cache data_cache reads].
  repeat split.
  - now rewrite <- app_assoc.
  - rewrite render_unfold. unfold bind.
    assert (L : exists md s', load_resources fs'
                  {| proc := {| resource_cache :=
                                  Some {| oid := next_id p; oval := m |};
                                data_cache := None;
                                next_id := S (next_id p);
                                reads := (reads p ++ [model_path])
                                         ++ [data_path];
                                texts := texts p |};
                     page := preamble; here := Main; predict_calls := [] |}
                = (Ok md, s')).
    { open_caches. rewrite H. step. eexists _, _. reflexivity. }
    destruct L as (md & s' & ->). apply after_loading_never_stops.
  - rewrite render_unfold. unfold bind.
    assert (L : exists md s', load_resources fs'
                  {| proc := {| resource_cache :=
                                  Some {| oid := next_id p; oval := m |};
                                data_cache := None;
                                next_id := S (next_id p);
                                reads := (reads p ++ [model_path])
                                         ++ [data_path];
                                texts := texts p |};
                     page := preamble; here := Main; predict_calls := [] |}
                = (Ok md, s')
                /\ reads (proc s')
                   = (reads p ++ [model_path; data_path; data_path])%list).
    { open_caches. rewrite H. step. eexists _, _. split; [reflexivity|].
      step. now rewrite <- !app_assoc. }
    destruct L as (md & s' & -> & Hr).
    rewrite after_loading_same_process. exact Hr.
Qed.

Lemma spreadsheet_failure_keeps_model_witness :
  fst (render disk_without_data untouched fresh_process) = Stopped
  /\ reads (process_of (render disk_without_data untouched fresh_process))
     = [model_path; data_path]
  /\ reads (process_of
              (render (disk two_rows) untouched
                 (process_of
                    (render disk_without_data untouched fresh_process))))
     = [model_path; data_path; data_path].
Proof.
  destruct (spreadsheet_failure_keeps_model disk_without_data untouched
              fresh_process stub_model (not_found data_path)
              eq_refl eq_refl eq_refl eq_refl)
    as (H1 & _ & _ & H2 & H3).
  destruct (H3 (disk two_rows) untouched two_rows eq_refl) as [_ H4].
  repeat split; assumption.
Defined.

Lemma after_loading_footer (ui : session)
  (md : obj Model * obj Pandas.DataFrame) (s : run_state) :
  List.length (footers (page (snd (after_loading ui md s))))
  = match fst (after_loading ui md s) with
    | Ok _ => S (List.length (footers (page s)))
    | _ => List.length (footers (page s))
    end.
Proof.
  unfold after_loading, bind.
  pose proof (header_same_footers s) as H1.
  destruct (header_section s) as [[[]|e|] s1]; cbn [fst snd] in *;
    try (now rewrite H1).
  pose proof (sidebar_same_footers ui (snd md) s1) as H2.
  destruct (sidebar_for_inputs ui (snd md) s1)
    as [[[[age experience] predict_btn]|e|] s2]; cbn [fst snd] in *;
    try (now rewrite H2, H1).
  pose proof (renderer_same_footers (fst md) (snd md) age experience
                predict_btn s2) as H3.
  destruct (renderer (fst md) (snd md) age experience predict_btn s2)
    as [[[]|e|] s3]; cbn [fst snd] in *;
    try (now rewrite H3, H2, H1).
  unfold same_footers in *.
  unfold footer. cbn [emit fst snd page].
  change (footers (page s3 ++ [(here s3, Markdown footer_html true)]))
    with (filter (fun be => is_footer (snd be))
            (page s3 ++ [(here s3, Markdown footer_html true)])).
  rewrite filter_app. fold (footers (page s3)).
  rewrite length_app, H3, H2, H1.
  cbn [filter snd is_footer]. rewrite String.eqb_refl. cbn [List.length]. lia.
Qed.

(** X5.  The frame of every run.  The page always opens with the page
    configuration and the style sheet, whatever happens later.  The
    footer is rendered exactly once in a run that reaches its end, and
    not at all in a run that is stopped by a failed load or ended by an
    exception. *)
Theorem page_frame (fs : files) (ui : session) (p : process) :
  (exists rest, page_of (render fs ui p) = (preamble ++ rest)%list)
  /\ List.length (footers (page_of (render fs ui p)))
     = match fst (render fs ui p) with
       | Ok _ => 1%nat
       | _ => 0%nat
       end.
Proof.
  rewrite render_unfold. unfold page_of. split.
  - assert (G : preserves page_grows
                  (bind (load_resources fs) (after_loading ui)))
      by preserve.
    apply (G {| proc := p; page := preamble; here := Main;
                predict_calls := [] |}).
  - unfold bind.
    pose proof (load_resources_same_footers fs
                  {| proc := p; page := preamble; here := Main;
                     predict_calls := [] |}) as HL.
    unfold same_footers in HL. cbn [page] in HL.
    change (footers preamble) with (@nil (block * element)) in HL.
    destruct (load_resources fs _) as [[md|e|] s1]; cbn [fst snd] in *;
      try (now rewrite HL).
    rewrite after_loading_footer, HL.
    now destruct (fst (after_loading ui md s1)).
Qed.

Lemma slider_in_range (lo hi dflt : Z) (moved : option Z) :
  lo <= dflt <= hi -> lo <= slider_value lo hi dflt moved <= hi.
Proof. unfold slider_value. destruct moved; lia. Qed.

Lemma bind_assoc {A B C} (m : M A) (k : A -> M B) (h : B -> M C)
  (s : run_state) :
  bind (bind m k) h s = bind m (fun a => bind (k a) h) s.
Proof. unfold bind. now destruct (m s) as [[a|e|] s']. Qed.

Lemma main_content_calls (model : obj Model) (data : obj Pandas.DataFrame)
  (age experience : Z) (s : run_state) :
  predict_calls (snd (main_content_area model data age experience s))
  = (predict_calls s ++ [[[age; experience]]])%list.
Proof.
  unfold main_content_area. unfold bind at 1. unfold prediction, bind at 1.
  unfold call_predict, input_data.
  destruct (predict (oval model) [[age; experience]]) as [e|[|y rest]];
    try reflexivity.
  cbn [item0 ret].
  set (s1 := {| proc := proc s; page := page s; here := here s;
                predict_calls := predict_calls s ++ [[[age; experience]]] |}).
  assert (G : preserves same_calls
    (bind (prediction_card y age experience)
       (fun _ => bind (emit (Markdown "---" false))
          (fun _ => bind (enhanced_visualizations (oval data) age experience y)
             (fun _ => statistics_section (oval data) y)))))
    by preserve.
  exact (G s1).
Qed.

Lemma after_loading_calls (ui : session)
  (md : obj Model * obj Pandas.DataFrame) (s : run_state) :
  predict_calls (snd (after_loading ui md s))
  = (predict_calls s
     ++ (if button_pressed ui "🎯 Predict Salary"
         then [[[age_of ui; experience_of ui]]] else []))%list.
Proof.
  unfold after_loading. unfold bind at 1.
  pose proof (header_same_calls s) as H1.
  destruct (header_section s) as [[[]|e|] s1] eqn:E1; cbn [fst snd] in *;
    try (unfold header_section, bind, within, emit in E1; discriminate E1).
  unfold bind at 1.
  assert (E2 : exists s2, sidebar_for_inputs ui (snd md) s1
                 = (Ok (age_of ui, experience_of ui,
                        button_pressed ui "🎯 Predict Salary"), s2)
               /\ predict_calls s2 = predict_calls s1).
  { eexists. split; [open_script; step; reflexivity | reflexivity]. }
  destruct E2 as (s2 & -> & H2).
  assert (G : forall s3,
             predict_calls
               (snd (bind (dataset_preview_section (oval (snd md)))
                       (fun _ => footer) s3))
             = predict_calls s3).
  { assert (G : preserves same_calls
                  (bind (dataset_preview_section (oval (snd md)))
                     (fun _ => footer))) by preserve.
    exact G. }
  unfold renderer. rewrite bind_assoc.
  destruct (button_pressed ui "🎯 Predict Salary").
  - pose proof (main_content_calls (fst md) (snd md) (age_of ui)
                  (experience_of ui) s2) as H3.
    unfold bind at 1.
    destruct (main_content_area (fst md) (snd md) (age_of ui)
                (experience_of ui) s2) as [[[]|e|] s3];
      cbn [fst snd] in *; try (now rewrite H3, H2, H1).
    now rewrite G, H3, H2, H1.
  - rewrite bind_ret, G, H2, H1. now rewrite app_nil_r.
Qed.

(** X6.  The model is called only when the button is pressed, at most
    once in a run, and only on inputs inside the domains of the two
    controls: a run that is stopped by a failed load calls nothing; any
    other run calls the model exactly once on the two slider values when
    the button is pressed, and not at all when it is not. *)
Theorem model_called_only_on_press (fs : files) (ui : session) (p : process) :
  in_domain (age_of ui) (experience_of ui)
  /\ predict_calls (snd (render fs ui p))
     = match fst (render fs ui p) with
       | Stopped => []
       | _ => if button_pressed ui "🎯 Predict Salary"
              then [[[age_of ui; experience_of ui]]]
              else []
       end.
Proof.
  split.
  - split; apply slider_in_range; lia.
  - rewrite render_unfold. unfold bind.
    pose proof (load_resources_same_calls fs
                  {| proc := p; page := preamble; here := Main;
                     predict_calls := [] |}) as HL.
    destruct (load_resources_ok_or_stopped fs
                {| proc := p; page := preamble; here := Main;
                   predict_calls := [] |})
      as [(md & s1 & E & _) | (s1 & E)]; rewrite E in *; cbn [fst snd] in *.
    + rewrite after_loading_calls, HL. cbn [predict_calls app].
      pose proof (after_loading_never_stops ui md s1).
      destruct (fst (after_loading ui md s1)); congruence.
    + exact HL.
Qed.

(** X7.  The Training Samples metric of the sidebar shows the number of
    rows of the dataset with a comma every three digits: its digits
    spell the number of rows, removing the commas gives the plain
    decimal text of that number, and read from the right the digits come
    in groups of three. *)
Theorem training_samples_text
  (ui : session) (data : obj Pandas.DataFrame) (s : run_state) :
  let rows := Pandas.len (oval data) in
  let shown := format_int_comma rows in
  metric_values "Training Samples"
    (page (snd (sidebar_for_inputs ui data s)))
  = (metric_values "Training Samples" (page s) ++ [shown])%list
  /\ digits_value shown = rows
  /\ strip_commas shown = str_int rows
  /\ grouped_rev (rev (list_ascii_of_string shown)) = true.
Proof.
  intros rows shown.
  assert (Hrows : 0 <= rows).
  { unfold rows, Pandas.len. destruct (oval data); lia. }
  assert (Hshown : shown = group_thousands (digits_of_N (Z.to_N rows))).
  { unfold shown, format_int_comma. destruct rows; try reflexivity. lia. }
  split; [|split; [|split]].
  - open_script. step. unfold metric_values.
    rewrite !flat_map_app. cbn [flat_map snd app].
    cbn. rewrite !app_nil_r. reflexivity.
  - rewrite Hshown. unfold digits_value. rewrite read_grouped. lia.
  - rewrite Hshown, strip_commas_group. unfold str_int.
    destruct rows; try reflexivity. lia.
  - rewrite Hshown.
    destruct (group_thousands_shape (Z.to_N rows)) as (c & t & -> & _ & G).
    exact G.
Qed.

(** X8.  The currency text of a finite float shows the value rounded to
    the nearest cent.  Read as a number of cents, the digits of the text
    are exact for a float that is a whole number of units of 2^e with
    e >= 0, and otherwise differ from the value by at most half a cent;
    a value exactly half way between two cents is shown with the even
    one.  A minus sign follows the dollar sign exactly when the sign bit
    of the float is set. *)
Theorem currency_shows_nearest_cent (sign : bool) (m : positive) (e : Z) :
  let cents := digits_value (currency (S754_finite sign m e)) in
  0 <= cents
  /\ (0 <= e -> cents = 100 * Zpos m * 2 ^ e)
  /\ (e < 0 ->
      Z.abs (2 * (cents * 2 ^ (- e) - 100 * Zpos m)) <= 2 ^ (- e))
  /\ (e < 0 ->
      2 * ((100 * Zpos m) mod 2 ^ (- e)) = 2 ^ (- e) ->
      Z.even cents = true)
  /\ minus_second (currency (S754_finite sign m e)) = sign.
Proof.
  intros cents.
  assert (Hs : 0 <= scaled 2 m e
               /\ (0 <= e -> scaled 2 m e = 100 * Zpos m * 2 ^ e)
               /\ (e < 0 ->
                   Z.abs (2 * (scaled 2 m e * 2 ^ (- e) - 100 * Zpos m))
                   <= 2 ^ (- e))
               /\ (e < 0 ->
                   2 * ((100 * Zpos m) mod 2 ^ (- e)) = 2 ^ (- e) ->
                   Z.even (scaled 2 m e) = true)).
  { unfold scaled. change (10 ^ Z.of_nat 2) with 100.
    replace (Zpos m * 100) with (100 * Zpos m) by lia.
    destruct (Z.leb_spec 0 e) as [He|He].
    - repeat split; lia.
    - assert (Hd : 0 < 2 ^ (- e)) by (apply Z.pow_pos_nonneg; lia).
      destruct (round_half_even_nearest (100 * Zpos m) (2 ^ (- e))
                  ltac:(lia) Hd) as (A & B & C).
      repeat split; auto; lia. }
  destruct Hs as (H0 & H1 & H2 & H3).
  assert (Hc : cents = scaled 2 m e).
  { unfold cents, digits_value, currency, format_f.
    rewrite !list_ascii_app, !read_digits_app.
    replace (read_digits
               (read_digits 0 (list_ascii_of_string "$"))
               (list_ascii_of_string (sign_str false sign))) with 0
      by (now destruct sign).
    now apply read_fixed_digits. }
  rewrite Hc. repeat split; auto.
  unfold minus_second, currency, format_f. rewrite !list_ascii_app.
  destruct (fixed_digits_currency (scaled 2 m e))
    as (c & t & c1 & c2 & -> & Hd & _).
  destruct sign; cbn; [reflexivity | now apply digit_is_not_minus].
Qed.

(** X9.  The Dataset Preview Section makes no prediction and fails in
    one case only.  On a frame without columns [data.describe()] raises
    [ValueError] after the record preview and the heading of the
    summary were rendered, and none of the metrics of the overview
    follows.  On every frame that has a column, also one without rows,
    the section ends normally with the whole overview.  Its preview tab
    holds a frame with the same columns and the first ten cells of each,
    so min(10, n) rows, while the Total Records metric shows all n. *)
Theorem dataset_preview_total (data : Pandas.DataFrame) (s : run_state) :
  dataset_preview_section data s
  = (match data with
     | [] => Raise (library_error (proc s) NoColumns)
     | _ :: _ => Ok tt
     end,
     {| proc := proc s;
        page := page s ++ match data with
                          | [] => up_to_summary (here s) data
                          | _ :: _ => overview_panel (here s) data
                          end;
        here := here s;
        predict_calls := predict_calls s |})
  /\ class_of NoColumns = "ValueError"
  /\ metric_values "Total Records" (up_to_summary (here s) data) = []
  /\ metric_values "Total Records" (overview_panel (here s) data)
     = [str_int (Pandas.len data)]
  /\ In (Tab "📊 Preview" (Expander "📁 Dataset Overview" (here s)),
         DataFrameView (Pandas.Frame (Pandas.head 10 data)) true)
        (page (snd (dataset_preview_section data s)))
  /\ Pandas.len (Pandas.head 10 data) = Z.min 10 (Pandas.len data)
  /\ map Pandas.name (Pandas.head 10 data) = map Pandas.name data
  /\ map (fun c => List.length (Pandas.values c)) (Pandas.head 10 data)
     = map (fun c => Nat.min 10 (List.length (Pandas.values c))) data.
Proof.
  assert (E : dataset_preview_section data s
              = (match data with
                 | [] => Raise (library_error (proc s) NoColumns)
                 | _ :: _ => Ok tt
                 end,
                 {| proc := proc s;
                    page := page s ++ match data with
                                      | [] => up_to_summary (here s) data
                                      | _ :: _ => overview_panel (here s) data
                                      end;
                    here := here s;
                    predict_calls := predict_calls s |})).
  { destruct data as [|c data].
    - apply dataset_preview_fails.
    - apply dataset_preview_run. unfold Pandas.n_columns. cbn [List.length].
      lia. }
  split; [exact E|]. split; [reflexivity|]. split; [reflexivity|].
  split; [reflexivity|]. split.
  { rewrite E. cbn [snd page]. apply in_or_app. right.
    destruct data; unfold up_to_summary, overview_panel; simpl; tauto. }
  split.
  { unfold Pandas.len, Pandas.head. destruct data as [|c data]; [reflexivity|].
    cbn [map Pandas.values]. rewrite length_firstn. lia. }
  split.
  { unfold Pandas.head. rewrite map_map. reflexivity. }
  unfold Pandas.head. rewrite map_map. apply map_ext. intro c.
  cbn [Pandas.values]. apply length_firstn.
Qed.

(** X10.  A Current Salary column without a single value (no rows, or
    only missing cells) has a mean and a maximum of NaN.  With the
    button pressed the statistics section still ends normally: the two
    dataset metrics show $nan and the Vs Mean metric shows +nan%,
    whatever the prediction is. *)
Theorem empty_salary_column_shows_nan
  (data : Pandas.DataFrame) (salaries : Pandas.Series) (p : float)
  (s : run_state) :
  Pandas.getitem data "Current Salary" = Some salaries ->
  Pandas.notna (Pandas.values salaries) = [] ->
  fst (statistics_section data p s) = Ok tt
  /\ metric_values "Dataset Mean Salary"
       (page (snd (statistics_section data p s)))
     = (metric_values "Dataset Mean Salary" (page s) ++ ["$nan"])%list
  /\ metric_values "Dataset Max Salary"
       (page (snd (statistics_section data p s)))
     = (metric_values "Dataset Max Salary" (page s) ++ ["$nan"])%list
  /\ metric_values "Vs Mean" (page (snd (statistics_section data p s)))
     = (metric_values "Vs Mean" (page s) ++ ["+nan%"])%list.
Proof.
  intros Hs He.
  pose proof (no_value_no_text salaries He) as Hn.
  assert (Hmean : Pandas.mean salaries = nan).
  { unfold Pandas.mean. now rewrite Hn, He. }
  assert (Hmax : Pandas.max salaries = nan).
  { unfold Pandas.max. now rewrite Hn, He. }
  assert (Hdev : deviation p nan = nan) by (now destruct p).
  rewrite (statistics_run data salaries p s Hs Hn).
  cbn [fst snd page]. unfold metric_values. rewrite !flat_map_app.
  rewrite Hmean, Hmax, Hdev. repeat split.
Qed.

Lemma empty_salary_column_shows_nan_witness :
  fst (statistics_section (frame [] [] []) (of_Z 35000) (start fresh_process))
  = Ok tt
  /\ metric_values "Vs Mean"
       (page (snd (statistics_section (frame [] [] []) (of_Z 35000)
                     (start fresh_process))))
     = ["+nan%"].
Proof.
  destruct (empty_salary_column_shows_nan (frame [] [] [])
              (int_series "Current Salary" []) (of_Z 35000)
              (start fresh_process) eq_refl eq_refl)
    as (H1 & _ & _ & H2).
  split; [exact H1 | exact H2].
Defined.

(** ** Sections that do not look at the process *)

Lemma blind_ret {A} (a : A) : blind (ret a).
Proof. intros s1 s2 H. now split. Qed.

Lemma blind_raise {A} (e : exn) : blind (@raise A e).
Proof. intros s1 s2 H. now split. Qed.

Lemma blind_fail {A} (f : failure) : blind (@fail A f).
Proof.
  intros s1 s2 H. split; [|exact H].
  destruct H as (_ & _ & _ & Ht). unfold fail, library_error. cbn [fst].
  now rewrite Ht.
Qed.

Lemma blind_emit (e : element) : blind (emit e).
Proof.
  intros s1 s2 (Hp & Hh & Hc & Ht). split; [reflexivity|].
  unfold alike. cbn [emit snd page here predict_calls proc].
  now rewrite Hp, Hh, Hc.
Qed.

Lemma blind_bind {A B} (m : M A) (k : A -> M B) :
  blind m -> (forall a, blind (k a)) -> blind (bind m k).
Proof.
  intros Hm Hk s1 s2 H. unfold bind.
  destruct (Hm s1 s2 H) as [Ho Ha].
  destruct (m s1) as [[a1|e1|] t1], (m s2) as [[a2|e2|] t2];
    cbn [fst snd] in *; try discriminate Ho; try (now split);
    inversion Ho; subst; first [now apply Hk | now split].
Qed.

Lemma blind_within {A} (blk : block -> block) (body : M A) :
  blind body -> blind (within blk body).
Proof.
  intros Hm s1 s2 (Hp & Hh & Hc & Ht). unfold within.
  destruct (Hm (with_here (blk (here s1)) s1) (with_here (blk (here s2)) s2))
    as [Ho (Hp' & _ & Hc' & Ht')].
  { unfold alike. cbn [with_here page here predict_calls proc].
    now rewrite Hp, Hh, Hc. }
  destruct (body (with_here (blk (here s1)) s1)) as [r1 t1],
           (body (with_here (blk (here s2)) s2)) as [r2 t2].
  cbn [fst snd] in *. split; [exact Ho|].
  unfold alike. cbn [with_here page here predict_calls proc]. auto.
Qed.

Lemma blind_predict (model : obj Model) (X : list (list Z)) :
  blind (call_predict model X).
Proof.
  intros s1 s2 (Hp & Hh & Hc & Ht). unfold call_predict.
  destruct (predict (oval model) X); (split; [reflexivity|]);
    unfold alike; cbn [snd page here predict_calls proc];
    now rewrite Hp, Hh, Hc.
Qed.

Lemma blind_item0 (a : list float) : blind (item0 a).
Proof. destruct a as [|y a]; [apply blind_fail | apply blind_ret]. Qed.

Lemma blind_column (df : Pandas.DataFrame) (key : string) :
  blind (column df key).
Proof.
  unfold column. destruct (Pandas.getitem df key);
    [apply blind_ret | apply blind_fail].
Qed.

Lemma blind_mean_of (c : Pandas.Series) : blind (mean_of c).
Proof.
  unfold mean_of. destruct (Pandas.has_text c);
    [apply blind_fail | apply blind_ret].
Qed.

Lemma blind_max_of (c : Pandas.Series) : blind (max_of c).
Proof.
  unfold max_of. destruct (Pandas.has_text c); [|apply blind_ret].
  destruct (forallb Pandas.is_text (Pandas.values c)); apply blind_fail.
Qed.

Lemma blind_describe (df : Pandas.DataFrame) : blind (describe df).
Proof.
  unfold describe. destruct (Pandas.describe df);
    [apply blind_ret | apply blind_fail].
Qed.

Lemma blind_scatter (df : Pandas.DataFrame) (x y h t c : string) :
  blind (scatter df x y h t c).
Proof.
  unfold scatter. destruct (Plotly.px_scatter df x y h t c);
    [apply blind_ret | apply blind_fail].
Qed.

Lemma blind_slider (ui : session) (label : string) (lo hi dflt : Z)
  (help : string) : blind (slider ui label lo hi dflt help).
Proof.
  apply blind_bind; [apply blind_emit | intro; apply blind_ret].
Qed.

Lemma blind_button (ui : session) (label : string) (wide : bool) :
  blind (button ui label wide).
Proof.
  apply blind_bind; [apply blind_emit | intro; apply blind_ret].
Qed.

Ltac blind_step :=
  cbv beta;
  match goal with
  | |- forall _, blind _ => intro
  | |- blind (ret _) => apply blind_ret
  | |- blind (raise _) => apply blind_raise
  | |- blind (fail _) => apply blind_fail
  | |- blind (emit _) => apply blind_emit
  | |- blind (bind _ _) => apply blind_bind
  | |- blind (within _ _) => apply blind_within
  | |- blind (call_predict _ _) => apply blind_predict
  | |- blind (item0 _) => apply blind_item0
  | |- blind (column _ _) => apply blind_column
  | |- blind (mean_of _) => apply blind_mean_of
  | |- blind (max_of _) => apply blind_max_of
  | |- blind (describe _) => apply blind_describe
  | |- blind (scatter _ _ _ _ _ _) => apply blind_scatter
  | |- blind (slider _ _ _ _ _ _) => apply blind_slider
  | |- blind (button _ _ _) => apply blind_button
  | |- blind (match ?x with _ => _ end) => destruct x
  | |- blind (if ?b then _ else _) => destruct b
  end.

Lemma after_loading_blind (ui : session)
  (md : obj Model * obj Pandas.DataFrame) :
  blind (after_loading ui md).
Proof. autounfold with sections. repeat blind_step. Qed.

(** The rest of the script uses the two objects only through their
    values. *)
Lemma after_loading_by_value (ui : session)
  (m m' : obj Model) (d d' : obj Pandas.DataFrame) (s : run_state) :
  oval m = oval m' -> oval d = oval d' ->
  after_loading ui (m, d) s = after_loading ui (m', d') s.
Proof.
  destruct m as [i v], m' as [i' v'], d as [j w], d' as [j' w'].
  cbn [oval]. intros <- <-.
  unfold after_loading, renderer, main_content_area, prediction,
    call_predict, sidebar_for_inputs.
  cbn [oval fst snd]. reflexivity.
Qed.

Lemma load_resources_returns (fs : files) (s : run_state)
  (md : obj Model * obj Pandas.DataFrame) (s' : run_state) :
  load_resources fs s = (Ok md, s') ->
  resource_cache (proc s') = Some (fst md)
  /\ data_cache (proc s') = Some (oval (snd md))
  /\ alike s s'.
Proof.
  intros H.
  assert (Hc : same_calls s s').
  { pose proof (load_resources_same_calls fs s) as Hc. now rewrite H in Hc. }
  unfold load_resources, try_except, bind in H.
  destruct (load_model_outcome fs s)
    as [(m & s1 & E1 & Hm & _ & Hp1 & Hh1 & Ht1) | (e & s1 & E1 & _)];
    rewrite E1 in H; [|discriminate H].
  destruct (load_data_outcome fs s1)
    as [(d & s2 & E2 & Hd & Hr & Hp2 & Hh2 & Ht2) | (e & s2 & E2 & _)];
    rewrite E2 in H; [|discriminate H].
  inversion H; subst. cbn [fst snd].
  unfold alike, same_calls in *. repeat split; congruence.
Qed.

(** X11.  The caches are transparent.  After a run that got past
    loading, a later run with the same state of the widgets renders the
    same page, ends the same way and makes the same call of the model,
    although it reads no file, works on a new copy of the dataset and
    may find the files changed or gone. *)
Theorem cached_run_same_page
  (fs : files) (ui : session) (p : process) (fs' : files) :
  fst (render fs ui p) <> Stopped ->
  page_of (render fs' ui (process_of (render fs ui p)))
  = page_of (render fs ui p)
  /\ fst (render fs' ui (process_of (render fs ui p))) = fst (render fs ui p)
  /\ predict_calls (snd (render fs' ui (process_of (render fs ui p))))
     = predict_calls (snd (render fs ui p)).
Proof.
  destruct (load_resources_ok_or_stopped fs
              {| proc := p; page := preamble; here := Main;
                 predict_calls := [] |})
    as [([m d] & s1 & E & _) | (s1 & E)].
  2:{ rewrite render_unfold. unfold bind. rewrite E. intros H. now elim H. }
  assert (R1 : render fs ui p = after_loading ui (m, d) s1).
  { rewrite render_unfold. unfold bind. now rewrite E. }
  rewrite R1. intros _. unfold page_of, process_of.
  rewrite (after_loading_same_process ui (m, d) s1).
  destruct (load_resources_returns _ _ _ _ E) as (Hm & Hd & Hp & Hh & Hc & Ht).
  cbn [fst snd page here predict_calls proc] in Hm, Hd, Hp, Hh, Hc, Ht.
  rewrite render_unfold. unfold bind.
  rewrite (load_resources_warm fs'
             {| proc := proc s1; page := preamble; here := Main;
                predict_calls := [] |} m (oval d) Hm Hd).
  rewrite (after_loading_by_value ui m m
             {| oid := next_id (proc s1); oval := oval d |} d _
             eq_refl eq_refl).
  match goal with
  | |- context [after_loading ui (m, d) ?s2] =>
      destruct (after_loading_blind ui (m, d) s2 s1)
        as (Ho & Hp' & _ & Hc' & _)
  end.
  { unfold alike. cbn [with_proc page here predict_calls proc texts]. auto. }
  auto.
Qed.

Lemma cached_run_same_page_witness :
  page_of (render empty_disk (pressed 30 5)
             (process_of (render (disk two_rows) (pressed 30 5) fresh_process)))
  = page_of (render (disk two_rows) (pressed 30 5) fresh_process).
Proof.
  destruct (cached_run_same_page (disk two_rows) (pressed 30 5) fresh_process
              empty_disk) as (H & _).
  - vm_compute. discriminate.
  - exact H.
Defined.

(** X12.  A model that raises ends the whole run.  With both resources
    cached and the button pressed, an exception of [model.predict]
    leaves the script uncaught: the run ends with that exception after
    the header and the sidebar, and the page has no prediction card, no
    chart, no summary metric, no dataset overview and no footer. *)
Theorem model_failure_ends_run
  (fs : files) (ui : session) (p : process) (m : obj Model)
  (d : Pandas.DataFrame) (e : exn) :
  resource_cache p = Some m ->
  data_cache p = Some d ->
  button_pressed ui "🎯 Predict Salary" = true ->
  predict (oval m) [[age_of ui; experience_of ui]] = inl e ->
  fst (render fs ui p) = Raise e
  /\ cards_shown (page_of (render fs ui p)) = []
  /\ count is_chart (page_of (render fs ui p)) = 0%nat
  /\ summary_metrics_shown (page_of (render fs ui p)) = []
  /\ count is_table (page_of (render fs ui p)) = 0%nat
  /\ footers (page_of (render fs ui p)) = []
  /\ metric_values "Training Samples" (page_of (render fs ui p))
     = [format_int_comma (Pandas.len d)].
Proof.
  intros Hm Hd Hb He.
  open_caches. step. rewrite Hm. step. rewrite Hd. step. rewrite Hb. step.
  unfold age_of, experience_of in He. rewrite He. step.
  cbn [app]. repeat split.
Qed.

Lemma model_failure_ends_run_witness :
  fst (render empty_disk (pressed 30 5) broken_process) = Raise shape_error
  /\ count is_table (page_of (render empty_disk (pressed 30 5) broken_process))
     = 0%nat.
Proof.
  destruct (model_failure_ends_run empty_disk (pressed 30 5) broken_process
              {| oid := 0; oval := broken_model |} two_rows shape_error
              eq_refl eq_refl eq_refl eq_refl)
    as (H1 & _ & _ & _ & H2 & _).
  split; [exact H1 | exact H2].
Defined.
